(** * The startup validator and FAQ builder backend (src/app.py)

    A shallow embedding of the two Flask handlers [validate_startup] and
    [generate_faq].  The handlers are straight-line Python: read the
    credential, decode the request body, check the required fields, render a
    prompt, post it to the provider, and map the answer or the failure to an
    HTTP response.  The embedding keeps that shape:

    - JSON values as Python sees them after decoding ([json]);
    - the Python operators the handlers apply to such values (truthiness,
      [dict.get], [in], subscription), each one raising what CPython raises;
    - exceptions as a class and the text of [str(e)], with the two
      [isinstance] tests of the [except] clauses;
    - a small state-and-exception monad [Py]: the state holds the log of
      outbound provider calls and the local [nvidia_response], which the
      second [except] clause inspects through [locals()];
    - the environment ([Env]): the credential, the provider as a function
      from the outbound call to what [requests.post] does, the behaviour of
      [Response.json()] of the installed requests library, and [str()] on
      values that are not strings. *)

From Stdlib Require Import String Ascii ZArith List Bool Lia DecimalString.
Import ListNotations.
Local Open Scope string_scope.
Local Open Scope Z_scope.

(** ** JSON values as Python objects *)

(** A Python float as [json.loads] yields it, written by its shortest decimal
    representation [m * 10^e]; the decoder also accepts the literals
    [Infinity], [-Infinity] and [NaN]. *)
Inductive pyfloat : Type :=
| Finite (m e : Z)
| Infinity (negative : bool)
| NaN.

Set Warnings "-register-all".

(** A decoded JSON document.  A [dict] is kept as an association list in
    insertion order, which is what a Python dict iterates in; lookup takes
    the first binding of a key.  A [str] is kept as the sequence of its
    encoded characters. *)
Inductive json : Type :=
| JNull
| JBool (b : bool)
| JInt (z : Z)
| JFloat (f : pyfloat)
| JStr (s : string)
| JArr (xs : list json)
| JObj (kvs : list (string * json)).

(** [type(v).__name__] *)
Definition py_type_name (v : json) : string :=
  match v with
  | JNull => "NoneType"
  | JBool _ => "bool"
  | JInt _ => "int"
  | JFloat _ => "float"
  | JStr _ => "str"
  | JArr _ => "list"
  | JObj _ => "dict"
  end.

(** [bool(v)]: [None], [False], zero, and the empty string, list and dict are
    false; everything else is true. *)
Definition truthy (v : json) : bool :=
  match v with
  | JNull => false
  | JBool b => b
  | JInt z => negb (z =? 0)
  | JFloat (Finite m _) => negb (m =? 0)
  | JFloat _ => true
  | JStr s => negb (s =? "")%string
  | JArr xs => match xs with [] => false | _ :: _ => true end
  | JObj kvs => match kvs with [] => false | _ :: _ => true end
  end.

(** [all(vs)] *)
Definition py_all (vs : list json) : bool := forallb truthy vs.

Fixpoint assoc_get (kvs : list (string * json)) (k : string) : option json :=
  match kvs with
  | [] => None
  | (k', v) :: rest => if (k' =? k)%string then Some v else assoc_get rest k
  end.

(** [s == v] for a string [s] and a decoded JSON value [v]. *)
Definition str_eq_json (s : string) (v : json) : bool :=
  match v with
  | JStr t => (s =? t)%string
  | _ => false
  end.

(** [needle in haystack] on strings: substring test. *)
Fixpoint str_contains (needle haystack : string) : bool :=
  if prefix needle haystack then true
  else match haystack with
       | EmptyString => false
       | String _ rest => str_contains needle rest
       end.

(** Decimal rendering of an integer, as [str(n)] and [f"{n}"] print it. *)
Definition str_of_Z (z : Z) : string := NilZero.string_of_int (Z.to_int z).

(** ** Exceptions *)

(** The exception classes that can reach the handlers' [except] clauses.
    [RequestsJSONDecodeError] is [requests.exceptions.JSONDecodeError], which
    requests declares (from 2.27 on) as a subclass of both
    [InvalidJSONError], a [RequestException], and [json.JSONDecodeError];
    [JSONDecodeError] is the plain [json.JSONDecodeError]. *)
Inductive exn_class : Type :=
| RequestException
| ConnectionError
| Timeout
| HTTPError
| RequestsJSONDecodeError
| JSONDecodeError
| HTTPException
| AttributeError
| KeyError
| TypeError
| IndexError.

Record exn : Type := mk_exn { exn_cls : exn_class; exn_str : string }.

(** [isinstance(e, requests.exceptions.RequestException)] *)
Definition is_RequestException (e : exn) : bool :=
  match exn_cls e with
  | RequestException | ConnectionError | Timeout | HTTPError
  | RequestsJSONDecodeError => true
  | _ => false
  end.

(** [isinstance(e, json.JSONDecodeError)] *)
Definition is_JSONDecodeError (e : exn) : bool :=
  match exn_cls e with
  | RequestsJSONDecodeError | JSONDecodeError => true
  | _ => false
  end.

(** ** Python operators on decoded JSON *)

Inductive key : Type :=
| KStr (s : string)
| KInt (i : Z).

(** [d.get(k)] on a dict: the value, or [None]. *)
Definition dict_get (kvs : list (string * json)) (k : string) : json :=
  match assoc_get kvs k with
  | Some v => v
  | None => JNull
  end.

(** [data.get(k)]: only a dict has the method. *)
Definition py_get (data : json) (k : string) : exn + json :=
  match data with
  | JObj kvs => inr (dict_get kvs k)
  | _ => inl (mk_exn AttributeError
                ("'" ++ py_type_name data ++ "' object has no attribute 'get'"))
  end.

(** [k in v] for a string [k]. *)
Definition py_in (k : string) (v : json) : exn + bool :=
  match v with
  | JObj kvs => inr (match assoc_get kvs k with Some _ => true | None => false end)
  | JArr xs => inr (existsb (str_eq_json k) xs)
  | JStr s => inr (str_contains k s)
  | _ => inl (mk_exn TypeError
                ("argument of type '" ++ py_type_name v ++ "' is not iterable"))
  end.

(** Position of index [i] in a sequence of length [n], Python style. *)
Definition seq_index (n : nat) (i : Z) : option nat :=
  let len := Z.of_nat n in
  if (0 <=? i) && (i <? len) then Some (Z.to_nat i)
  else if (i <? 0) && (0 <=? i + len) then Some (Z.to_nat (i + len))
  else None.

(** [v[k]] *)
Definition py_getitem (v : json) (k : key) : exn + json :=
  match v, k with
  | JObj kvs, KStr s =>
      match assoc_get kvs s with
      | Some x => inr x
      | None => inl (mk_exn KeyError ("'" ++ s ++ "'"))
      end
  | JObj _, KInt i => inl (mk_exn KeyError (str_of_Z i))
  | JArr xs, KInt i =>
      match seq_index (List.length xs) i with
      | Some n => match nth_error xs n with
                  | Some x => inr x
                  | None => inl (mk_exn IndexError "list index out of range")
                  end
      | None => inl (mk_exn IndexError "list index out of range")
      end
  | JArr _, KStr _ =>
      inl (mk_exn TypeError "list indices must be integers or slices, not str")
  | JStr s, KInt i =>
      match seq_index (String.length s) i with
      | Some n => match String.get n s with
                  | Some c => inr (JStr (String c EmptyString))
                  | None => inl (mk_exn IndexError "string index out of range")
                  end
      | None => inl (mk_exn IndexError "string index out of range")
      end
  | JStr _, KStr _ =>
      inl (mk_exn TypeError "string indices must be integers, not 'str'")
  | _, _ =>
      inl (mk_exn TypeError
             ("'" ++ py_type_name v ++ "' object is not subscriptable"))
  end.

(** ** HTTP data *)

(** What [requests.post] is called with. *)
Record outbound_call : Type := mk_call {
  call_url : string;
  call_headers : list (string * string);
  call_json : json;
  call_timeout : Z
}.

(** A [requests.Response]: status line, final URL, body text, and the body
    decoded as JSON ([inr]) or the decoder's complaint ([inl]). *)
Record response : Type := mk_response {
  status_code : Z;
  reason : string;
  url : string;
  text : string;
  json_decoded : string + json
}.

(** The subclasses of [RequestException] that [requests.post] itself raises. *)
Inductive transport_failure : Type :=
| ConnectionFailed
| TimedOut
| OtherRequestFailure.

Inductive post_outcome : Type :=
| PostRaises (f : transport_failure) (msg : string)
| PostReturns (r : response).

(** The two behaviours of [Response.json()] on a body that is not JSON: up to
    requests 2.26 it lets [json.JSONDecodeError] through, from 2.27 on it
    raises [requests.exceptions.JSONDecodeError]. *)
Inductive requests_version : Type :=
| Requests_before_2_27
| Requests_from_2_27.

(** What [request.get_json()] does: the decoded body, or an HTTP exception of
    werkzeug (body not decodable, or not declared as JSON) with its text. *)
Inductive get_json_outcome : Type :=
| Decoded (v : json)
| Rejected (description : string).

Record request : Type := mk_request { get_json : get_json_outcome }.

(** What a view function returns: [jsonify(body), status]. *)
Record http_response : Type := mk_http { status : Z; body : json }.

Definition jsonify (kvs : list (string * json)) : json := JObj kvs.

(** Everything outside the handlers. *)
Record Env : Type := mk_env {
  env_NVIDIA_API_KEY : option string;          (* os.getenv("NVIDIA_API_KEY") *)
  env_requests : requests_version;
  env_provider : outbound_call -> post_outcome;
  env_str : json -> string                     (* str(v) for v not a str *)
}.

(** ** The monad of a handler body *)

Record frame : Type := mk_frame {
  calls : list outbound_call;            (* provider calls made so far *)
  nvidia_response : option response      (* the local, once it is bound *)
}.

Definition init_frame : frame := mk_frame [] None.

Definition Py (A : Type) : Type := frame -> (exn + A) * frame.

Definition ret {A} (a : A) : Py A := fun fr => (inr a, fr).

Definition bind {A B} (c : Py A) (k : A -> Py B) : Py B :=
  fun fr => match c fr with
            | (inr a, fr') => k a fr'
            | (inl e, fr') => (inl e, fr')
            end.

Definition lift {A} (r : exn + A) : Py A := fun fr => (r, fr).

Declare Scope py_scope.
Delimit Scope py_scope with py.
Notation "x <- c ;; k" := (bind c (fun x => k))
  (at level 100, c at next level, right associativity) : py_scope.
Notation "c ;;; k" := (bind c (fun _ => k))
  (at level 100, right associativity) : py_scope.
Local Open Scope py_scope.

(** [request.get_json()] *)
Definition request_get_json (req : request) : Py json :=
  match get_json req with
  | Decoded v => ret v
  | Rejected d => lift (inl (mk_exn HTTPException d))
  end.

Definition transport_exn (f : transport_failure) (msg : string) : exn :=
  mk_exn (match f with
          | ConnectionFailed => ConnectionError
          | TimedOut => Timeout
          | OtherRequestFailure => RequestException
          end) msg.

(** [nvidia_response = requests.post(url, headers=.., json=.., timeout=..)]:
    one call goes out; the local is bound only when the call returns. *)
Definition requests_post (env : Env) (u : string)
    (headers : list (string * string)) (payload : json) (timeout : Z)
  : Py response :=
  fun fr =>
    let c := mk_call u headers payload timeout in
    let log := (calls fr ++ [c])%list in
    match env_provider env c with
    | PostRaises f msg => (inl (transport_exn f msg), mk_frame log (nvidia_response fr))
    | PostReturns r => (inr r, mk_frame log (Some r))
    end.

(** [Response.raise_for_status()] of requests. *)
Definition raise_for_status (r : response) : Py unit :=
  let s := status_code r in
  if (400 <=? s) && (s <? 500) then
    lift (inl (mk_exn HTTPError
      (str_of_Z s ++ " Client Error: " ++ reason r ++ " for url: " ++ url r)))
  else if (500 <=? s) && (s <? 600) then
    lift (inl (mk_exn HTTPError
      (str_of_Z s ++ " Server Error: " ++ reason r ++ " for url: " ++ url r)))
  else ret tt.

(** [Response.json()] *)
Definition Response_json (env : Env) (r : response) : Py json :=
  match json_decoded r with
  | inr v => ret v
  | inl msg =>
      lift (inl (mk_exn (match env_requests env with
                         | Requests_before_2_27 => JSONDecodeError
                         | Requests_from_2_27 => RequestsJSONDecodeError
                         end) msg))
  end.

(** [f"{v}"] *)
Definition fmt (env : Env) (v : json) : string :=
  match v with
  | JStr s => s
  | _ => env_str env v
  end.

Definition newline : string := String (ascii_of_nat 10) EmptyString.

(** The lines of a triple-quoted literal, joined by newlines. *)
Fixpoint join_lines (ls : list string) : string :=
  match ls with
  | [] => ""
  | [l] => l
  | l :: rest => l ++ newline ++ join_lines rest
  end.

Definition NVIDIA_MODEL_NAME : string := "meta/llama3-8b-instruct".
Definition NVIDIA_API_URL : string :=
  "https://integrate.api.nvidia.com/v1/chat/completions".

Definition request_headers (api_key : string) : list (string * string) :=
  [ ("Authorization", "Bearer " ++ api_key);
    ("Accept", "application/json");
    ("Content-Type", "application/json") ].

(** [response_data and "choices" in response_data and response_data["choices"]],
    taken as the condition of an [if]. *)
Definition has_choices (response_data : json) : Py bool :=
  if truthy response_data then
    present <- lift (py_in "choices" response_data) ;;
    if (present : bool) then
      choices <- lift (py_getitem response_data (KStr "choices")) ;;
      ret (truthy choices)
    else ret false
  else ret false.

(** [response_data["choices"][0]["message"]["content"]] *)
Definition first_choice_content (response_data : json) : Py json :=
  choices <- lift (py_getitem response_data (KStr "choices")) ;;
  first <- lift (py_getitem choices (KInt 0)) ;;
  message <- lift (py_getitem first (KStr "message")) ;;
  lift (py_getitem message (KStr "content")).

(** The three [except] clauses, in the order they are written; both handlers
    carry the same three (they differ in what they print on the server). *)
Definition handle_exception (e : exn) (fr : frame) : http_response :=
  if is_RequestException e then
    mk_http 500 (jsonify [ ("error", JStr ("NVIDIA API request failed: " ++ exn_str e));
                           ("details", JStr (exn_str e)) ])
  else if is_JSONDecodeError e then
    let response_text :=
      match nvidia_response fr with
      | Some r => text r
      | None => "No response from API"
      end in
    mk_http 500 (jsonify [ ("error", JStr "Invalid JSON response from NVIDIA API.");
                           ("raw_response", JStr response_text) ])
  else
    mk_http 500 (jsonify [ ("error", JStr ("An unexpected error occurred: " ++ exn_str e));
                           ("details", JStr (exn_str e)) ]).

(** [try: body except ...]: run the body from a fresh frame; the response and
    the provider calls that went out. *)
Definition run_try (body : Py http_response) : http_response * list outbound_call :=
  match body init_frame with
  | (inr resp, fr) => (resp, calls fr)
  | (inl e, fr) => (handle_exception e fr, calls fr)
  end.

(** [not NVIDIA_API_KEY] *)
Definition key_unset (k : option string) : bool :=
  match k with
  | None => true
  | Some s => (s =? "")%string
  end.

Definition key_text (k : option string) : string :=
  match k with Some s => s | None => "" end.

Definition missing_key_response : http_response :=
  mk_http 500 (jsonify [ ("error", JStr "NVIDIA_API_KEY is not set in the .env file.") ]).

(** ** POST /validate_startup *)

Definition validate_prompt (env : Env)
    (startup_name description target_market business_model
     competitive_advantage : json) : string :=
  join_lines [
      "";
      "        You are an expert startup validator and business analyst. Your task is to evaluate the following startup idea comprehensively.";
      "";
      "        Startup Name: " ++ fmt env startup_name;
      "        Description: " ++ fmt env description;
      "        Target Market: " ++ fmt env target_market;
      "        Business Model: " ++ fmt env business_model;
      "        Competitive Advantage: " ++ fmt env competitive_advantage;
      "";
      "        Please provide a detailed assessment structured as follows, using Markdown for clear formatting:";
      "";
      "        **Startup Rating:** [X/10] - Provide a concise justification for this rating, highlighting key strengths and weaknesses.";
      "        **Sentiment Analysis:** [Overall sentiment of the idea's viability, e.g., 'Highly Positive', 'Positive', 'Neutral', 'Slightly Negative', 'Negative'] - Explain the reasons behind this sentiment based on the provided details, considering market trends and potential.";
      "        **Suggestions for Improvement:**";
      "        * Suggestion 1: Explain how this improves the idea, focusing on market fit, scalability, technical feasibility, or execution strategy.";
      "        * Suggestion 2: Another actionable suggestion with explanation.";
      "        * Suggestion 3: A third practical suggestion (if applicable).";
      "        **Relevant Ideas & References:**";
      "        * Idea 1 Name: Brief description of a similar, complementary, or adjacent business idea. (If relevant, include a real or hypothetical URL reference, e.g., 'https://www.example.com/related_project')";
      "        * Idea 2 Name: Brief description. (If relevant, include a real or hypothetical URL reference)";
      "        * Idea 3 Name: Brief description. (If relevant, include a real or hypothetical URL reference)";
      "        "
    ].

Definition validate_payload (prompt : string) : json :=
  JObj [ ("model", JStr NVIDIA_MODEL_NAME);
         ("messages", JArr [ JObj [ ("role", JStr "user");
                                    ("content", JStr prompt) ] ]);
         ("temperature", JFloat (Finite 7 (-1)));
         ("top_p", JFloat (Finite 9 (-1)));
         ("max_tokens", JInt 1024);
         ("stream", JBool false) ].

(** The body of the [try] block. *)
Definition validate_startup_try (env : Env) (req : request) : Py http_response :=
  data <- request_get_json req ;;
  startup_name <- lift (py_get data "startupName") ;;
  description <- lift (py_get data "description") ;;
  target_market <- lift (py_get data "targetMarket") ;;
  business_model <- lift (py_get data "businessModel") ;;
  competitive_advantage <- lift (py_get data "competitiveAdvantage") ;;
  if negb (py_all [startup_name; description; target_market; business_model;
                   competitive_advantage]) then
    ret (mk_http 400
           (jsonify [ ("error", JStr "Missing one or more required startup details.") ]))
  else
    let headers := request_headers (key_text (env_NVIDIA_API_KEY env)) in
    let prompt := validate_prompt env startup_name description target_market
                    business_model competitive_advantage in
    let payload := validate_payload prompt in
    nvidia_response <- requests_post env NVIDIA_API_URL headers payload 60 ;;
    raise_for_status nvidia_response ;;;
    response_data <- Response_json env nvidia_response ;;
    ok <- has_choices response_data ;;
    if (ok : bool) then
      ai_text <- first_choice_content response_data ;;
      ret (mk_http 200 (jsonify [ ("success", JBool true); ("ai_response", ai_text) ]))
    else
      ret (mk_http 500 (jsonify [ ("error", JStr "No valid response from NVIDIA API.");
                                  ("raw_response", response_data) ])).

(** The view function: the response, and the provider calls it made. *)
Definition validate_startup (env : Env) (req : request)
  : http_response * list outbound_call :=
  if key_unset (env_NVIDIA_API_KEY env) then (missing_key_response, [])
  else run_try (validate_startup_try env req).

(** ** POST /generate_faq *)

Definition faq_prompt (env : Env) (startup_name startup_description : json)
  : string :=
  join_lines [
      "";
      "        You are an expert AI assistant specializing in creating comprehensive Frequently Asked Questions (FAQ) sections for new startups.";
      "        Your goal is to anticipate common questions potential customers, investors, or users might have about the startup.";
      "";
      "        Startup Name: " ++ fmt env startup_name;
      "        Startup Description: " ++ fmt env startup_description;
      "";
      "        Generate a list of 5-8 common and insightful FAQs with concise answers.";
      "        Format your response clearly using Markdown, with each question as a bold heading and the answer following directly.";
      "";
      "        Example Format:";
      "        **Q: What is [Startup Name]?**";
      "        A: [Concise answer about what it does and its core value proposition.]";
      "";
      "        **Q: How does [Startup Name] work?**";
      "        A: [Explanation of the basic mechanics or user flow.]";
      "";
      "        --- Start Generating FAQs ---";
      "        "
    ].

Definition faq_payload (prompt : string) : json :=
  JObj [ ("model", JStr NVIDIA_MODEL_NAME);
         ("messages", JArr [ JObj [ ("role", JStr "user");
                                    ("content", JStr prompt) ] ]);
         ("temperature", JFloat (Finite 7 (-1)));
         ("top_p", JFloat (Finite 9 (-1)));
         ("max_tokens", JInt 1000);
         ("stream", JBool false) ].

(** The body of the [try] block. *)
Definition generate_faq_try (env : Env) (req : request) : Py http_response :=
  data <- request_get_json req ;;
  startup_name <- lift (py_get data "startupName") ;;
  startup_description <- lift (py_get data "startupDescription") ;;
  if negb (py_all [startup_name; startup_description]) then
    ret (mk_http 400 (jsonify [ ("error", JStr "Missing startup name or description.") ]))
  else
    let headers := request_headers (key_text (env_NVIDIA_API_KEY env)) in
    let prompt := faq_prompt env startup_name startup_description in
    let payload := faq_payload prompt in
    nvidia_response <- requests_post env NVIDIA_API_URL headers payload 60 ;;
    raise_for_status nvidia_response ;;;
    response_data <- Response_json env nvidia_response ;;
    ok <- has_choices response_data ;;
    if (ok : bool) then
      ai_text <- first_choice_content response_data ;;
      ret (mk_http 200 (jsonify [ ("success", JBool true); ("faq_content", ai_text) ]))
    else
      ret (mk_http 500 (jsonify [ ("error", JStr "No valid response from NVIDIA API.");
                                  ("raw_response", response_data) ])).

Definition generate_faq (env : Env) (req : request)
  : http_response * list outbound_call :=
  if key_unset (env_NVIDIA_API_KEY env) then (missing_key_response, [])
  else run_try (generate_faq_try env req).

(** ** Sample environments and requests *)

Definition acme_faq_body : json :=
  JObj [ ("startupName", JStr "Acme");
         ("startupDescription", JStr "Widgets for robots") ].

Definition acme_validate_body : json :=
  JObj [ ("startupName", JStr "Acme");
         ("description", JStr "Widgets for robots");
         ("targetMarket", JStr "Robot owners");
         ("businessModel", JStr "Subscription");
         ("competitiveAdvantage", JStr "{startup_name} is {{first}}") ].

Definition ok_response (v : json) : response :=
  mk_response 200 "OK" NVIDIA_API_URL "" (inr v).

Definition stub_env (k : option string) (out : post_outcome) : Env :=
  mk_env k Requests_from_2_27 (fun _ => out) (fun _ => "").

Definition faq_choices : json :=
  JObj [ ("choices",
          JArr [ JObj [ ("message", JObj [ ("content", JStr "**Q: ...") ]) ] ]) ].


(** ** Vocabulary of the properties *)

Definition validate_required : list string :=
  [ "startupName"; "description"; "targetMarket"; "businessModel";
    "competitiveAdvantage" ].

Definition faq_required : list string := [ "startupName"; "startupDescription" ].

(** The credential is configured: [os.getenv] gives a non-empty string. *)
Definition credential_set (env : Env) : bool :=
  negb (key_unset (env_NVIDIA_API_KEY env)).

(** A required field is absent from the object, or is the empty string. *)
Definition field_missing (kvs : list (string * json)) (k : string) : Prop :=
  assoc_get kvs k = None \/ assoc_get kvs k = Some (JStr "").

(** Every required field of the object is truthy. *)
Definition fields_truthy (required : list string)
    (kvs : list (string * json)) : bool :=
  forallb (fun k => truthy (dict_get kvs k)) required.

(** The request passes validation: the credential is configured, the body
    decodes to an object, and every required field is truthy. *)
Definition passes_validation (required : list string) (env : Env)
    (req : request) : bool :=
  credential_set env &&
  match get_json req with
  | Decoded (JObj kvs) => fields_truthy required kvs
  | _ => false
  end.

(** The fields of a decoded body, [None] where there is none. *)
Definition field (req : request) (k : string) : json :=
  match get_json req with
  | Decoded (JObj kvs) => dict_get kvs k
  | _ => JNull
  end.

(** The prompt each handler renders for a request. *)
Definition validate_prompt_of (env : Env) (req : request) : string :=
  validate_prompt env (field req "startupName") (field req "description")
    (field req "targetMarket") (field req "businessModel")
    (field req "competitiveAdvantage").

Definition faq_prompt_of (env : Env) (req : request) : string :=
  faq_prompt env (field req "startupName") (field req "startupDescription").

(** The provider call each handler issues for a validated request. *)
Definition validate_call (env : Env) (req : request) : outbound_call :=
  mk_call NVIDIA_API_URL (request_headers (key_text (env_NVIDIA_API_KEY env)))
    (validate_payload (validate_prompt_of env req)) 60.

Definition faq_call (env : Env) (req : request) : outbound_call :=
  mk_call NVIDIA_API_URL (request_headers (key_text (env_NVIDIA_API_KEY env)))
    (faq_payload (faq_prompt_of env req)) 60.

(** The tail of both [try] blocks, from [requests.post] on; the handlers
    differ in the call and in the key under which the text is returned. *)
Definition relay (env : Env) (result_key : string) (c : outbound_call)
  : Py http_response :=
  nvidia_response <- requests_post env (call_url c) (call_headers c)
                       (call_json c) (call_timeout c) ;;
  raise_for_status nvidia_response ;;;
  response_data <- Response_json env nvidia_response ;;
  ok <- has_choices response_data ;;
  if (ok : bool) then
    ai_text <- first_choice_content response_data ;;
    ret (mk_http 200 (jsonify [ ("success", JBool true); (result_key, ai_text) ]))
  else
    ret (mk_http 500 (jsonify [ ("error", JStr "No valid response from NVIDIA API.");
                                ("raw_response", response_data) ])).

(** The text of the [AttributeError] of [v.get] on a value without [get]. *)
Definition no_get_message (v : json) : string :=
  "'" ++ py_type_name v ++ "' object has no attribute 'get'".

Definition is_object (v : json) : bool :=
  match v with JObj _ => true | _ => false end.

(** The two validation responses. *)
Definition validate_missing_response : http_response :=
  mk_http 400 (jsonify [ ("error", JStr "Missing one or more required startup details.") ]).

Definition faq_missing_response : http_response :=
  mk_http 400 (jsonify [ ("error", JStr "Missing startup name or description.") ]).

(** [s] occurs in [t], character for character. *)
Definition Substring (s t : string) : Prop :=
  exists pre post, t = pre ++ s ++ post.

(** A 2xx status. *)
Definition is_2xx (s : Z) : bool := (200 <=? s) && (s <? 300).

(** A status on which [raise_for_status] raises: 4xx or 5xx. *)
Definition is_error_status (s : Z) : bool := (400 <=? s) && (s <? 600).

(** The text of the [HTTPError] that [raise_for_status] raises. *)
Definition http_error_message (r : response) : string :=
  str_of_Z (status_code r)
  ++ (if status_code r <? 500 then " Client Error: " else " Server Error: ")
  ++ reason r ++ " for url: " ++ url r.

(** The decoded provider body carries no usable [choices]: it is falsy, or an
    object in which [choices] is absent or falsy. *)
Definition lacks_choices (v : json) : bool :=
  negb (truthy v) ||
  match v with
  | JObj kvs => match assoc_get kvs "choices" with
                | None => true
                | Some c => negb (truthy c)
                end
  | _ => false
  end.

(** The text of the first choice's message, where the decoded body has the
    shape [{"choices": [{"message": {"content": t}, ..}, ..], ..}]. *)
Definition first_message_content (v : json) : option json :=
  match v with
  | JObj kvs =>
      match assoc_get kvs "choices" with
      | Some (JArr (JObj first :: _)) =>
          match assoc_get first "message" with
          | Some (JObj message) => assoc_get message "content"
          | _ => None
          end
      | _ => None
      end
  | _ => None
  end.

(** The response of the transport-failure clause for error text [m]. *)
Definition request_failed_response (m : string) : http_response :=
  mk_http 500 (jsonify [ ("error", JStr ("NVIDIA API request failed: " ++ m));
                         ("details", JStr m) ]).

(** The response of the catch-all clause for error text [m]. *)
Definition unexpected_error_response (m : string) : http_response :=
  mk_http 500 (jsonify [ ("error", JStr ("An unexpected error occurred: " ++ m));
                         ("details", JStr m) ]).

(** The response of the undecodable-body clause for body text [t]. *)
Definition invalid_json_response (t : string) : http_response :=
  mk_http 500 (jsonify [ ("error", JStr "Invalid JSON response from NVIDIA API.");
                         ("raw_response", JStr t) ]).

(** The response of the empty-result branch for the decoded body [v]. *)
Definition no_valid_response (v : json) : http_response :=
  mk_http 500 (jsonify [ ("error", JStr "No valid response from NVIDIA API.");
                         ("raw_response", v) ]).

(** The fields of a JSON object response body. *)
Definition body_field (r : http_response) (k : string) : option json :=
  match body r with
  | JObj kvs => assoc_get kvs k
  | _ => None
  end.

(** The prompt a provider call carries: the content of its single message. *)
Definition sent_prompt (c : outbound_call) : option string :=
  match call_json c with
  | JObj kvs =>
      match assoc_get kvs "messages" with
      | Some (JArr [JObj message]) =>
          match assoc_get message "role", assoc_get message "content" with
          | Some (JStr "user"), Some (JStr p) => Some p
          | _, _ => None
          end
      | _ => None
      end
  | _ => None
  end.

(** ** Concrete runs *)

Definition acme_validate_request : request := mk_request (Decoded acme_validate_body).
Definition acme_faq_request : request := mk_request (Decoded acme_faq_body).

(** A request whose body is the empty object. *)
Definition empty_object_request : request := mk_request (Decoded (JObj [])).

(** A request whose body [get_json] refuses. *)
Definition undecodable_request : request :=
  mk_request (Rejected "400 Bad Request: The browser (or proxy) sent a request that this server could not understand.").

(** No credential in the environment. *)
Definition unconfigured_env : Env := stub_env None (PostRaises ConnectionFailed "unreachable").

(** The provider answers 200 with one choice that has no message. *)
Definition bare_choice_env : Env :=
  stub_env (Some "k") (PostReturns (ok_response (JObj [ ("choices", JArr [ JObj [] ]) ]))).

(** The provider answers 200 with a page that is not JSON. *)
Definition html_response : response :=
  mk_response 200 "OK" NVIDIA_API_URL "<html>Bad gateway</html>"
    (inl "Expecting value: line 1 column 1 (char 0)").

Definition html_env : Env := stub_env (Some "k") (PostReturns html_response).

Definition html_env_old_requests : Env :=
  mk_env (Some "k") Requests_before_2_27 (fun _ => PostReturns html_response)
    (fun _ => "").

(** The provider answers 200 with the JSON number 5. *)
Definition number_env : Env := stub_env (Some "k") (PostReturns (ok_response (JInt 5))).

(** The provider answers 200 with an object without [choices]. *)
Definition no_choices_env : Env :=
  stub_env (Some "k") (PostReturns (ok_response (JObj [ ("detail", JStr "busy") ]))).

(** The provider answers 300 with a well-formed completion. *)
Definition multiple_choices_response : response :=
  mk_response 300 "Multiple Choices" NVIDIA_API_URL "" (inr faq_choices).

Definition redirect_env : Env := stub_env (Some "k") (PostReturns multiple_choices_response).

(** The provider answers 503. *)
Definition unavailable_response : response :=
  mk_response 503 "Service Unavailable" NVIDIA_API_URL "" (inl "Expecting value: line 1 column 1 (char 0)").

Definition unavailable_env : Env := stub_env (Some "k") (PostReturns unavailable_response).

(** The provider does not answer in time. *)
Definition timeout_env : Env := stub_env (Some "k") (PostRaises TimedOut "Read timed out. (read timeout=60)").

(** The provider answers 200 with a completion. *)
Definition completion_env : Env := stub_env (Some "k") (PostReturns (ok_response faq_choices)).

(** ** GET / *)

(** The liveness view: a fixed text, whatever the environment. *)
Definition home : string :=
  "AI Startup Validator & FAQ Builder Backend is running!".

(** ** The handlers as functions of their inputs *)

(** The success response, with the text under the handler's key. *)
Definition success_response (result_key : string) (t : json) : http_response :=
  mk_http 200 (jsonify [ ("success", JBool true); (result_key, t) ]).

(** The responses a handler can give: the configuration error, its
    validation error, and the five outcomes of the [try] block. *)
Inductive reply_shape (result_key : string) (missing : http_response)
  : http_response -> Prop :=
| shape_unset : reply_shape result_key missing missing_key_response
| shape_missing : reply_shape result_key missing missing
| shape_unexpected (m : string) :
    reply_shape result_key missing (unexpected_error_response m)
| shape_request_failed (m : string) :
    reply_shape result_key missing (request_failed_response m)
| shape_invalid_json (t : string) :
    reply_shape result_key missing (invalid_json_response t)
| shape_no_valid (v : json) :
    reply_shape result_key missing (no_valid_response v)
| shape_success (t : json) :
    reply_shape result_key missing (success_response result_key t).

(** What a handler answers before it reaches [requests.post], if it stops
    there: credential guard, [get_json], the [data.get] calls, the
    required-field check. *)
Definition early_reply (missing : http_response) (required : list string)
    (env : Env) (req : request) : option http_response :=
  if key_unset (env_NVIDIA_API_KEY env) then Some missing_key_response
  else match get_json req with
       | Rejected d => Some (unexpected_error_response d)
       | Decoded (JObj kvs) =>
           if fields_truthy required kvs then None else Some missing
       | Decoded v => Some (unexpected_error_response (no_get_message v))
       end.

(** What a handler answers to an outcome of [requests.post]. *)
Definition reply_to (env : Env) (result_key : string) (out : post_outcome)
  : http_response :=
  match out with
  | PostRaises _ msg => request_failed_response msg
  | PostReturns r =>
      if is_error_status (status_code r) then
        request_failed_response (http_error_message r)
      else
        match json_decoded r with
        | inl msg =>
            match env_requests env with
            | Requests_before_2_27 => invalid_json_response (text r)
            | Requests_from_2_27 => request_failed_response msg
            end
        | inr v =>
            match fst (has_choices v init_frame) with
            | inl e => unexpected_error_response (exn_str e)
            | inr false => no_valid_response v
            | inr true =>
                match fst (first_choice_content v init_frame) with
                | inl e => unexpected_error_response (exn_str e)
                | inr t => success_response result_key t
                end
            end
        end
  end.

(** An exception that only the last [except] clause accepts. *)
Definition for_catch_all (e : exn) : Prop :=
  is_RequestException e = false /\ is_JSONDecodeError e = false.

(** The credential is set to the empty string. *)
Definition empty_key_env : Env :=
  stub_env (Some "") (PostReturns (ok_response faq_choices)).

(** An FAQ body with an unknown key and a field of the other endpoint. *)
Definition noisy_faq_body : json :=
  JObj [ ("utm", JStr "newsletter");
         ("startupName", JStr "Acme");
         ("startupDescription", JStr "Widgets for robots");
         ("description", JNull) ].

Definition noisy_faq_request : request := mk_request (Decoded noisy_faq_body).

(** An FAQ body whose name is the number 0. *)
Definition number_name_body : json :=
  JObj [ ("startupName", JInt 0);
         ("startupDescription", JStr "Widgets for robots") ].

Definition number_name_request : request := mk_request (Decoded number_name_body).

(** The JSON contract of a reply: success carries [success: true] and the
    text under the handler's key and no [error]; a failure has status 400
    or 500 and a string under [error], and no [success]. *)
Definition well_formed_reply (result_key : string) (r : http_response) : Prop :=
  (status r = 200
   /\ body_field r "success" = Some (JBool true)
   /\ body_field r "error" = None
   /\ exists t, body_field r result_key = Some t)
  \/
  ((status r = 400 \/ status r = 500)
   /\ body_field r "success" = None
   /\ exists m, body_field r "error" = Some (JStr m)).

(** The decoded provider bodies on which the [if] of the handlers takes its
    [else] branch: a falsy body; an object without [choices] or with a falsy
    one; and, since [in] is also defined on lists and strings, a list
    without the element ["choices"] and a string without that substring. *)
Definition gives_empty_result (v : json) : bool :=
  negb (truthy v) ||
  match v with
  | JObj kvs => match assoc_get kvs "choices" with
                | None => true
                | Some c => negb (truthy c)
                end
  | JArr xs => negb (existsb (str_eq_json "choices") xs)
  | JStr s => negb (str_contains "choices" s)
  | _ => false
  end.

(** The provider answers 200 with a JSON string. *)
Definition string_body_env : Env :=
  stub_env (Some "k") (PostReturns (ok_response (JStr "overloaded"))).

(** * Properties *)

Arguments validate_prompt : simpl never.
Arguments faq_prompt : simpl never.
Arguments str_of_Z : simpl never.

(** The example scenario of the specification. *)
Example generate_faq_scenario :
  fst (generate_faq (stub_env (Some "k") (PostReturns (ok_response faq_choices)))
         (mk_request (Decoded acme_faq_body)))
  = mk_http 200 (jsonify [ ("success", JBool true); ("faq_content", JStr "**Q: ...") ]).
Proof. reflexivity. Qed.

(** ** The handlers, stage by stage *)

Section Stages.

Variable env : Env.
Variable req : request.

(** Without the credential neither handler enters its [try] block. *)
Lemma validate_startup_unset :
  key_unset (env_NVIDIA_API_KEY env) = true ->
  validate_startup env req = (missing_key_response, []).
Proof. intros H. unfold validate_startup. now rewrite H. Qed.

Lemma generate_faq_unset :
  key_unset (env_NVIDIA_API_KEY env) = true ->
  generate_faq env req = (missing_key_response, []).
Proof. intros H. unfold generate_faq. now rewrite H. Qed.

Lemma credential_set_unset :
  credential_set env = true -> key_unset (env_NVIDIA_API_KEY env) = false.
Proof. unfold credential_set. now destruct (key_unset _). Qed.

(** A body that is not an object stops the handler at the first [data.get]
    (or at [get_json] itself). *)
Lemma validate_startup_rejected d :
  credential_set env = true ->
  get_json req = Rejected d ->
  validate_startup env req = (unexpected_error_response d, []).
Proof.
  intros Hk Hb. unfold validate_startup.
  rewrite (credential_set_unset Hk).
  unfold run_try, validate_startup_try, request_get_json, bind. now rewrite Hb.
Qed.

Lemma generate_faq_rejected d :
  credential_set env = true ->
  get_json req = Rejected d ->
  generate_faq env req = (unexpected_error_response d, []).
Proof.
  intros Hk Hb. unfold generate_faq.
  rewrite (credential_set_unset Hk).
  unfold run_try, generate_faq_try, request_get_json, bind. now rewrite Hb.
Qed.

Lemma validate_startup_not_object v :
  credential_set env = true ->
  get_json req = Decoded v ->
  is_object v = false ->
  validate_startup env req = (unexpected_error_response (no_get_message v), []).
Proof.
  intros Hk Hb Ho. unfold validate_startup.
  rewrite (credential_set_unset Hk).
  unfold run_try, validate_startup_try, request_get_json, bind. rewrite Hb.
  destruct v; try discriminate Ho; reflexivity.
Qed.

Lemma generate_faq_not_object v :
  credential_set env = true ->
  get_json req = Decoded v ->
  is_object v = false ->
  generate_faq env req = (unexpected_error_response (no_get_message v), []).
Proof.
  intros Hk Hb Ho. unfold generate_faq.
  rewrite (credential_set_unset Hk).
  unfold run_try, generate_faq_try, request_get_json, bind. rewrite Hb.
  destruct v; try discriminate Ho; reflexivity.
Qed.


(** A falsy required field ends the handler with the 400 response, before
    any provider call. *)
Lemma validate_startup_falsy kvs :
  credential_set env = true ->
  get_json req = Decoded (JObj kvs) ->
  fields_truthy validate_required kvs = false ->
  validate_startup env req = (validate_missing_response, []).
Proof.
  intros Hk Hb Hf. unfold validate_startup.
  rewrite (credential_set_unset Hk).
  unfold run_try, validate_startup_try, request_get_json, bind. rewrite Hb.
  unfold fields_truthy, validate_required in Hf. simpl in Hf.
  rewrite andb_true_r in Hf.
  unfold ret, lift, py_get, py_all. cbn [forallb].
  rewrite andb_true_r, Hf. reflexivity.
Qed.

Lemma generate_faq_falsy kvs :
  credential_set env = true ->
  get_json req = Decoded (JObj kvs) ->
  fields_truthy faq_required kvs = false ->
  generate_faq env req = (faq_missing_response, []).
Proof.
  intros Hk Hb Hf. unfold generate_faq.
  rewrite (credential_set_unset Hk).
  unfold run_try, generate_faq_try, request_get_json, bind. rewrite Hb.
  unfold fields_truthy, faq_required in Hf. simpl in Hf.
  rewrite andb_true_r in Hf.
  unfold ret, lift, py_get, py_all. cbn [forallb].
  rewrite andb_true_r, Hf. reflexivity.
Qed.

(** What passing validation gives. *)
Lemma passes_validation_inv required :
  passes_validation required env req = true ->
  credential_set env = true /\
  exists kvs, get_json req = Decoded (JObj kvs) /\
              fields_truthy required kvs = true.
Proof.
  unfold passes_validation. intros H.
  apply andb_true_iff in H. destruct H as [Hk H]. split; [exact Hk|].
  destruct (get_json req) as [v|d]; [|discriminate].
  destruct v; try discriminate. eauto.
Qed.

(** A validated request reaches the provider: the handler is the common
    tail run on the handler's call. *)
Lemma validate_startup_validated :
  passes_validation validate_required env req = true ->
  validate_startup env req
  = run_try (relay env "ai_response" (validate_call env req)).
Proof.
  intros H. destruct (passes_validation_inv _ H) as [Hk [kvs [Hb Hf]]].
  unfold validate_startup. rewrite (credential_set_unset Hk).
  unfold run_try, validate_startup_try, request_get_json, bind at 1.
  rewrite Hb.
  unfold fields_truthy, validate_required in Hf. simpl in Hf.
  rewrite andb_true_r in Hf.
  unfold ret at 1. unfold bind at 1 2 3 4 5, lift at 1 2 3 4 5, py_get, py_all.
  cbn [forallb]. rewrite andb_true_r, Hf. cbn [negb].
  unfold validate_call, validate_prompt_of, field, relay. rewrite Hb.
  reflexivity.
Qed.

Lemma generate_faq_validated :
  passes_validation faq_required env req = true ->
  generate_faq env req
  = run_try (relay env "faq_content" (faq_call env req)).
Proof.
  intros H. destruct (passes_validation_inv _ H) as [Hk [kvs [Hb Hf]]].
  unfold generate_faq. rewrite (credential_set_unset Hk).
  unfold run_try, generate_faq_try, request_get_json, bind at 1.
  rewrite Hb.
  unfold fields_truthy, faq_required in Hf. simpl in Hf.
  rewrite andb_true_r in Hf.
  unfold ret at 1. unfold bind at 1 2, lift at 1 2, py_get, py_all.
  cbn [forallb]. rewrite andb_true_r, Hf. cbn [negb].
  unfold faq_call, faq_prompt_of, field, relay. rewrite Hb.
  reflexivity.
Qed.

End Stages.

(** ** The common tail: one call, then the mapping of its outcome *)

Section Relay.

Variable env : Env.
Variable result_key : string.
Variable c : outbound_call.

Lemma call_eta :
  mk_call (call_url c) (call_headers c) (call_json c) (call_timeout c) = c.
Proof. now destruct c. Qed.

Lemma raise_for_status_ok r :
  is_error_status (status_code r) = false -> raise_for_status r = ret tt.
Proof.
  unfold is_error_status, raise_for_status. intros H.
  destruct (400 <=? status_code r) eqn:E4; simpl in *.
  - destruct (status_code r <? 500) eqn:E5.
    + apply Z.ltb_lt in E5. apply Z.ltb_ge in H. lia.
    + destruct (500 <=? status_code r) eqn:E6; simpl.
      * now rewrite H.
      * reflexivity.
  - destruct (500 <=? status_code r) eqn:E6; simpl; [|reflexivity].
    apply Z.leb_le in E6. apply Z.leb_gt in E4. lia.
Qed.

Lemma raise_for_status_error r :
  is_error_status (status_code r) = true ->
  raise_for_status r = lift (inl (mk_exn HTTPError (http_error_message r))).
Proof.
  unfold is_error_status, raise_for_status, http_error_message. intros H.
  apply andb_true_iff in H. destruct H as [H4 H6]. rewrite H4. simpl.
  destruct (status_code r <? 500) eqn:E5; [reflexivity|].
  apply Z.ltb_ge in E5. apply Z.leb_le in E5. now rewrite E5, H6.
Qed.

Lemma is_2xx_no_error s : is_2xx s = true -> is_error_status s = false.
Proof.
  unfold is_2xx, is_error_status. intros H.
  apply andb_true_iff in H. destruct H as [_ H]. apply Z.ltb_lt in H.
  apply andb_false_iff. left. apply Z.leb_gt. lia.
Qed.

(** Whatever the provider does, exactly the one call goes out. *)
Lemma relay_one_call : snd (run_try (relay env result_key c)) = [c].
Proof.
  unfold run_try, relay, bind, requests_post. rewrite call_eta. simpl.
  destruct (env_provider env c) as [f msg|r]; [reflexivity|].
  destruct (raise_for_status r _) as [[e|[]] fr] eqn:Er.
  - unfold raise_for_status in Er.
    repeat (destruct (_ && _) in Er); inversion Er; reflexivity.
  - assert (Hfr : fr = mk_frame [c] (Some r)).
    { unfold raise_for_status in Er.
      repeat (destruct (_ && _) in Er); inversion Er; reflexivity. }
    subst fr.
    unfold Response_json. destruct (json_decoded r) as [m|v]; [reflexivity|].
    unfold ret at 1.
    unfold has_choices. destruct (truthy v); [|reflexivity].
    unfold bind, lift, ret.
    destruct (py_in "choices" v) as [e|[]]; [reflexivity| |reflexivity].
    destruct (py_getitem v (KStr "choices")) as [e|ch]; [reflexivity|].
    destruct (truthy ch); [|reflexivity].
    unfold first_choice_content, bind, lift.
    destruct (py_getitem v (KStr "choices")) as [e|ch']; [reflexivity|].
    destruct (py_getitem ch' (KInt 0)) as [e|c0]; [reflexivity|].
    destruct (py_getitem c0 (KStr "message")) as [e|m]; [reflexivity|].
    destruct (py_getitem m (KStr "content")) as [e|t]; reflexivity.
Qed.

(** [requests.post] raises: the first [except] clause answers. *)
Lemma relay_transport f msg :
  env_provider env c = PostRaises f msg ->
  run_try (relay env result_key c) = (request_failed_response msg, [c]).
Proof.
  intros H. unfold run_try, relay, bind, requests_post.
  rewrite call_eta, H. now destruct f.
Qed.

(** A 4xx or 5xx answer: [raise_for_status] raises, same clause. *)
Lemma relay_http_error r :
  env_provider env c = PostReturns r ->
  is_error_status (status_code r) = true ->
  run_try (relay env result_key c)
  = (request_failed_response (http_error_message r), [c]).
Proof.
  intros H Hs. unfold run_try, relay, bind, requests_post.
  rewrite call_eta, H, (raise_for_status_error _ Hs). reflexivity.
Qed.

(** A body that does not decode: which clause answers depends on what
    [Response.json()] raises. *)
Lemma relay_not_json r msg :
  env_provider env c = PostReturns r ->
  is_error_status (status_code r) = false ->
  json_decoded r = inl msg ->
  run_try (relay env result_key c)
  = (match env_requests env with
     | Requests_before_2_27 => invalid_json_response (text r)
     | Requests_from_2_27 => request_failed_response msg
     end, [c]).
Proof.
  intros H Hs Hj. unfold run_try, relay, bind, requests_post.
  rewrite call_eta, H, (raise_for_status_ok _ Hs). unfold ret at 1.
  unfold Response_json. rewrite Hj.
  now destruct (env_requests env).
Qed.

(** A decoded body handed to the [if]. *)
Lemma relay_decoded r v :
  env_provider env c = PostReturns r ->
  is_error_status (status_code r) = false ->
  json_decoded r = inr v ->
  run_try (relay env result_key c)
  = run_try (fun _ =>
      (ok <- has_choices v ;;
       if (ok : bool) then
         ai_text <- first_choice_content v ;;
         ret (mk_http 200 (jsonify [ ("success", JBool true); (result_key, ai_text) ]))
       else ret (no_valid_response v)) (mk_frame [c] (Some r))).
Proof.
  intros H Hs Hj. unfold run_try, relay, requests_post.
  unfold bind at 1. rewrite call_eta, H. unfold bind at 1.
  rewrite (raise_for_status_ok _ Hs). unfold ret at 1.
  unfold bind at 1. unfold Response_json. rewrite Hj. reflexivity.
Qed.

Lemma relay_lacks_choices r v :
  env_provider env c = PostReturns r ->
  is_error_status (status_code r) = false ->
  json_decoded r = inr v ->
  lacks_choices v = true ->
  run_try (relay env result_key c) = (no_valid_response v, [c]).
Proof.
  intros H Hs Hj Hl. rewrite (relay_decoded _ _ H Hs Hj).
  unfold run_try, has_choices, lacks_choices in *.
  destruct (truthy v) eqn:Ht; [|reflexivity].
  simpl in Hl. destruct v; try discriminate Hl.
  unfold bind, lift, py_in, py_getitem, ret.
  destruct (assoc_get kvs "choices") as [ch|]; [|reflexivity].
  apply negb_true_iff in Hl. now rewrite Hl.
Qed.

Lemma relay_success r v t :
  env_provider env c = PostReturns r ->
  is_error_status (status_code r) = false ->
  json_decoded r = inr v ->
  first_message_content v = Some t ->
  run_try (relay env result_key c)
  = (mk_http 200 (jsonify [ ("success", JBool true); (result_key, t) ]), [c]).
Proof.
  intros H Hs Hj Hc. rewrite (relay_decoded _ _ H Hs Hj).
  unfold first_message_content in Hc.
  destruct v as [| | | | | |kvs]; try discriminate Hc.
  destruct kvs as [|kv kvs]; [discriminate Hc|].
  unfold run_try, bind, has_choices, first_choice_content, lift, ret, bind.
  cbn [truthy]. unfold py_in, py_getitem at 1 2.
  destruct (assoc_get (kv :: kvs) "choices") as [ch|]; [|discriminate Hc].
  destruct ch as [| | | | |xs|]; try discriminate Hc.
  destruct xs as [|c0 rest]; [discriminate Hc|].
  destruct c0 as [| | | | | |first]; try discriminate Hc.
  cbn [truthy]. unfold py_getitem at 1. cbn.
  destruct (assoc_get first "message") as [m|]; [|discriminate Hc].
  destruct m as [| | | | | |message]; try discriminate Hc.
  cbn. now rewrite Hc.
Qed.

End Relay.

(** ** Substrings of the rendered prompts *)

Lemma append_assoc (a b c : string) : (a ++ b) ++ c = a ++ (b ++ c).
Proof. induction a as [|x a IH]; simpl; [reflexivity|now rewrite IH]. Qed.

Lemma append_nil_r (a : string) : a ++ "" = a.
Proof. induction a as [|x a IH]; simpl; [reflexivity|now rewrite IH]. Qed.

Lemma Substring_refl s : Substring s s.
Proof. exists "", "". simpl. now rewrite append_nil_r. Qed.

Lemma Substring_app_l s a b : Substring s a -> Substring s (a ++ b).
Proof.
  intros [pre [post H]]. exists pre, (post ++ b). subst a.
  now rewrite !append_assoc.
Qed.

Lemma Substring_app_r s a b : Substring s b -> Substring s (a ++ b).
Proof.
  intros [pre [post H]]. exists (a ++ pre), post. subst b.
  now rewrite !append_assoc.
Qed.

Lemma prefix_app s t : prefix s t = true <-> exists post, t = s ++ post.
Proof.
  revert t. induction s as [|x s IH]; intros t.
  - split; [intros _; now exists t | intros _; now destruct t].
  - destruct t as [|y t]; simpl.
    + split; [discriminate | intros [post H]; discriminate H].
    + destruct (ascii_dec x y) as [->|Hne].
      * rewrite IH. split; intros [post H]; exists post.
        -- now rewrite H.
        -- now inversion H.
      * split; [discriminate|]. intros [post H]. inversion H. now elim Hne.
Qed.

Lemma str_contains_eq s t :
  str_contains s t
  = if prefix s t then true
    else match t with
         | EmptyString => false
         | String _ rest => str_contains s rest
         end.
Proof. now destruct t. Qed.

(** The [in] test on strings decides [Substring]. *)
Lemma str_contains_Substring s t : str_contains s t = true <-> Substring s t.
Proof.
  split.
  - induction t as [|y t IH]; rewrite str_contains_eq;
      destruct (prefix s _) eqn:E; intros H.
    + apply prefix_app in E. destruct E as [post E]. now exists "", post.
    + discriminate H.
    + apply prefix_app in E. destruct E as [post E]. now exists "", post.
    + destruct (IH H) as [pre [post Ht]].
      exists (String y pre), post. simpl. now rewrite Ht.
  - intros [pre [post H]]. subst t.
    induction pre as [|y pre IH].
    + rewrite str_contains_eq.
      assert (E : prefix s ("" ++ s ++ post) = true)
        by (apply prefix_app; now exists post).
      now rewrite E.
    + change (String y pre ++ s ++ post) with (String y (pre ++ s ++ post)).
      rewrite str_contains_eq, IH. now destruct (prefix s _).
Qed.

(** A substring of one line is a substring of the joined lines. *)
Lemma Substring_join_lines s l ls :
  In l ls -> Substring s l -> Substring s (join_lines ls).
Proof.
  induction ls as [|l0 rest IH]; intros Hin Hs; [contradiction|].
  destruct Hin as [<-|Hin].
  - destruct rest; simpl; [exact Hs|now apply Substring_app_l].
  - destruct rest as [|l1 rest']; [contradiction|].
    change (join_lines (l0 :: l1 :: rest'))
      with (l0 ++ newline ++ join_lines (l1 :: rest')).
    apply Substring_app_r, Substring_app_r. now apply IH.
Qed.

Ltac in_lines := cbn [In]; repeat (first [left; reflexivity | right]).

Lemma validate_prompt_contains env a b c d e s :
  In (JStr s) [a; b; c; d; e] ->
  Substring s (validate_prompt env a b c d e).
Proof.
  intros Hin. unfold validate_prompt.
  cbn [In] in Hin.
  destruct Hin as [H|[H|[H|[H|[H|[]]]]]]; subst.
  - eapply Substring_join_lines with (l := "        Startup Name: " ++ fmt env (JStr s));
      [in_lines|apply Substring_app_r, Substring_refl].
  - eapply Substring_join_lines with (l := "        Description: " ++ fmt env (JStr s));
      [in_lines|apply Substring_app_r, Substring_refl].
  - eapply Substring_join_lines with (l := "        Target Market: " ++ fmt env (JStr s));
      [in_lines|apply Substring_app_r, Substring_refl].
  - eapply Substring_join_lines with (l := "        Business Model: " ++ fmt env (JStr s));
      [in_lines|apply Substring_app_r, Substring_refl].
  - eapply Substring_join_lines with (l := "        Competitive Advantage: " ++ fmt env (JStr s));
      [in_lines|apply Substring_app_r, Substring_refl].
Qed.

Lemma faq_prompt_contains env a b s :
  In (JStr s) [a; b] ->
  Substring s (faq_prompt env a b).
Proof.
  intros Hin. unfold faq_prompt.
  cbn [In] in Hin.
  destruct Hin as [H|[H|[]]]; subst.
  - eapply Substring_join_lines with (l := "        Startup Name: " ++ fmt env (JStr s));
      [in_lines|apply Substring_app_r, Substring_refl].
  - eapply Substring_join_lines with (l := "        Startup Description: " ++ fmt env (JStr s));
      [in_lines|apply Substring_app_r, Substring_refl].
Qed.

(** ** Required fields *)

Lemma field_missing_falsy kvs k :
  field_missing kvs k -> truthy (dict_get kvs k) = false.
Proof. unfold dict_get. now intros [-> | ->]. Qed.

Lemma fields_truthy_false required kvs k :
  In k required -> truthy (dict_get kvs k) = false ->
  fields_truthy required kvs = false.
Proof.
  intros Hin Hf. unfold fields_truthy.
  destruct (forallb _ required) eqn:E; [|reflexivity].
  rewrite forallb_forall in E. specialize (E k Hin). congruence.
Qed.

Lemma unset_of_None env :
  env_NVIDIA_API_KEY env = None -> key_unset (env_NVIDIA_API_KEY env) = true.
Proof. now intros ->. Qed.

(** ** The claims *)

(** C1, as amended.  With the credential configured: a POST to
    /validate_startup or /generate_faq whose body decodes to a JSON object in
    which a required field is absent or the empty string gets status 400 with
    exactly the fixed message of that endpoint, and no provider call is
    made. *)
Theorem missing_field_rejected (env : Env) (req : request)
    (kvs : list (string * json)) :
  credential_set env = true ->
  get_json req = Decoded (JObj kvs) ->
  ((exists k, In k validate_required /\ field_missing kvs k) ->
   validate_startup env req
   = (mk_http 400 (JObj [ ("error", JStr "Missing one or more required startup details.") ]),
      []))
  /\
  ((exists k, In k faq_required /\ field_missing kvs k) ->
   generate_faq env req
   = (mk_http 400 (JObj [ ("error", JStr "Missing startup name or description.") ]),
      [])).
Proof.
  intros Hk Hb. split; intros [k [Hin Hm]].
  - apply (validate_startup_falsy _ _ _ Hk Hb).
    exact (fields_truthy_false _ _ _ Hin (field_missing_falsy _ _ Hm)).
  - apply (generate_faq_falsy _ _ _ Hk Hb).
    exact (fields_truthy_false _ _ _ Hin (field_missing_falsy _ _ Hm)).
Qed.

Lemma missing_field_rejected_witness :
  validate_startup completion_env empty_object_request
  = (mk_http 400 (JObj [ ("error", JStr "Missing one or more required startup details.") ]), [])
  /\ generate_faq completion_env empty_object_request
     = (mk_http 400 (JObj [ ("error", JStr "Missing startup name or description.") ]), []).
Proof.
  destruct (missing_field_rejected completion_env empty_object_request []
              eq_refl eq_refl) as [Hv Hf].
  split.
  - apply Hv. exists "startupName". split; [now left | now left].
  - apply Hf. exists "startupName". split; [now left | now left].
Defined.

(** C1 as stated fails without the credential: the body is an object with
    every required field absent, and both handlers answer 500, not 400. *)
Lemma missing_field_without_credential :
  get_json empty_object_request = Decoded (JObj [])
  /\ field_missing [] "startupName"
  /\ In "startupName" validate_required
  /\ In "startupName" faq_required
  /\ status (fst (validate_startup unconfigured_env empty_object_request)) = 500
  /\ status (fst (generate_faq unconfigured_env empty_object_request)) = 500
  /\ status (fst (validate_startup unconfigured_env empty_object_request)) <> 400
  /\ status (fst (generate_faq unconfigured_env empty_object_request)) <> 400.
Proof.
  repeat split; try reflexivity; try (now left); try discriminate.
Qed.

(** C2, as amended.  For a request that passes validation, if the provider
    call returns a 2xx response whose body decodes to a JSON object whose
    [choices] is a non-empty list, whose first element is an object with a
    [message] object that has a [content], the handler returns 200 with
    [{"success": true, "ai_response": t}] (validation endpoint) or
    [{"success": true, "faq_content": t}] (FAQ endpoint), [t] being exactly
    that content. *)
Theorem first_choice_relayed (env : Env) (req : request) (r : response)
    (v t : json) :
  is_2xx (status_code r) = true ->
  json_decoded r = inr v ->
  first_message_content v = Some t ->
  (passes_validation validate_required env req = true ->
   env_provider env (validate_call env req) = PostReturns r ->
   fst (validate_startup env req)
   = mk_http 200 (JObj [ ("success", JBool true); ("ai_response", t) ]))
  /\
  (passes_validation faq_required env req = true ->
   env_provider env (faq_call env req) = PostReturns r ->
   fst (generate_faq env req)
   = mk_http 200 (JObj [ ("success", JBool true); ("faq_content", t) ])).
Proof.
  intros Hs Hj Hc. apply is_2xx_no_error in Hs. split; intros Hv Hp.
  - rewrite (validate_startup_validated _ _ Hv).
    now rewrite (relay_success _ _ _ _ _ _ Hp Hs Hj Hc).
  - rewrite (generate_faq_validated _ _ Hv).
    now rewrite (relay_success _ _ _ _ _ _ Hp Hs Hj Hc).
Qed.

Lemma first_choice_relayed_witness :
  fst (validate_startup completion_env acme_validate_request)
  = mk_http 200 (JObj [ ("success", JBool true); ("ai_response", JStr "**Q: ...") ])
  /\ fst (generate_faq completion_env acme_faq_request)
     = mk_http 200 (JObj [ ("success", JBool true); ("faq_content", JStr "**Q: ...") ]).
Proof.
  split.
  - apply (first_choice_relayed completion_env acme_validate_request
             (ok_response faq_choices) faq_choices (JStr "**Q: ...")
             eq_refl eq_refl eq_refl); reflexivity.
  - apply (first_choice_relayed completion_env acme_faq_request
             (ok_response faq_choices) faq_choices (JStr "**Q: ...")
             eq_refl eq_refl eq_refl); reflexivity.
Defined.

(** C2 as stated fails when the first choice has no message: the request
    passes validation, the provider answers 200 with a non-empty [choices]
    list, and the handlers answer 500 from the catch-all clause. *)
Lemma bare_choice_is_internal_error :
  passes_validation validate_required bare_choice_env acme_validate_request = true
  /\ passes_validation faq_required bare_choice_env acme_faq_request = true
  /\ env_provider bare_choice_env (validate_call bare_choice_env acme_validate_request)
     = PostReturns (ok_response (JObj [ ("choices", JArr [ JObj [] ]) ]))
  /\ env_provider bare_choice_env (faq_call bare_choice_env acme_faq_request)
     = PostReturns (ok_response (JObj [ ("choices", JArr [ JObj [] ]) ]))
  /\ is_2xx (status_code (ok_response (JObj [ ("choices", JArr [ JObj [] ]) ]))) = true
  /\ fst (validate_startup bare_choice_env acme_validate_request)
     = unexpected_error_response "'message'"
  /\ fst (generate_faq bare_choice_env acme_faq_request)
     = unexpected_error_response "'message'"
  /\ status (fst (validate_startup bare_choice_env acme_validate_request)) <> 200
  /\ status (fst (generate_faq bare_choice_env acme_faq_request)) <> 200.
Proof.
  repeat split; try reflexivity; vm_compute; discriminate.
Qed.

(** What the handlers do with a 2xx answer whose body does not decode, for
    each behaviour of [Response.json()]. *)
Lemma undecodable_body_before_2_27 (env : Env) (req : request) (r : response)
    (msg : string) :
  env_requests env = Requests_before_2_27 ->
  is_2xx (status_code r) = true ->
  json_decoded r = inl msg ->
  (passes_validation validate_required env req = true ->
   env_provider env (validate_call env req) = PostReturns r ->
   fst (validate_startup env req) = invalid_json_response (text r))
  /\
  (passes_validation faq_required env req = true ->
   env_provider env (faq_call env req) = PostReturns r ->
   fst (generate_faq env req) = invalid_json_response (text r)).
Proof.
  intros Hver Hs Hj. apply is_2xx_no_error in Hs. split; intros Hv Hp.
  - rewrite (validate_startup_validated _ _ Hv).
    now rewrite (relay_not_json _ _ _ _ _ Hp Hs Hj), Hver.
  - rewrite (generate_faq_validated _ _ Hv).
    now rewrite (relay_not_json _ _ _ _ _ Hp Hs Hj), Hver.
Qed.

Lemma undecodable_body_from_2_27 (env : Env) (req : request) (r : response)
    (msg : string) :
  env_requests env = Requests_from_2_27 ->
  is_2xx (status_code r) = true ->
  json_decoded r = inl msg ->
  (passes_validation validate_required env req = true ->
   env_provider env (validate_call env req) = PostReturns r ->
   fst (validate_startup env req) = request_failed_response msg)
  /\
  (passes_validation faq_required env req = true ->
   env_provider env (faq_call env req) = PostReturns r ->
   fst (generate_faq env req) = request_failed_response msg).
Proof.
  intros Hver Hs Hj. apply is_2xx_no_error in Hs. split; intros Hv Hp.
  - rewrite (validate_startup_validated _ _ Hv).
    now rewrite (relay_not_json _ _ _ _ _ Hp Hs Hj), Hver.
  - rewrite (generate_faq_validated _ _ Hv).
    now rewrite (relay_not_json _ _ _ _ _ Hp Hs Hj), Hver.
Qed.

Example undecodable_body_old_requests :
  fst (validate_startup html_env_old_requests acme_validate_request)
  = mk_http 500 (JObj [ ("error", JStr "Invalid JSON response from NVIDIA API.");
                        ("raw_response", JStr "<html>Bad gateway</html>") ]).
Proof. reflexivity. Qed.

(** C3, the code at the failing input.  With requests 2.27 or later, a
    validated request whose provider answer is 200 with a body that is not
    JSON is answered by the transport-failure clause: status 500, the
    decoder's message under [details], and no [raw_response] field. *)
Theorem undecodable_body_takes_request_failed_clause :
  passes_validation validate_required html_env acme_validate_request = true
  /\ passes_validation faq_required html_env acme_faq_request = true
  /\ env_provider html_env (validate_call html_env acme_validate_request)
     = PostReturns html_response
  /\ env_provider html_env (faq_call html_env acme_faq_request)
     = PostReturns html_response
  /\ is_2xx (status_code html_response) = true
  /\ json_decoded html_response = inl "Expecting value: line 1 column 1 (char 0)"
  /\ fst (validate_startup html_env acme_validate_request)
     = mk_http 500
         (JObj [ ("error", JStr "NVIDIA API request failed: Expecting value: line 1 column 1 (char 0)");
                 ("details", JStr "Expecting value: line 1 column 1 (char 0)") ])
  /\ fst (generate_faq html_env acme_faq_request)
     = mk_http 500
         (JObj [ ("error", JStr "NVIDIA API request failed: Expecting value: line 1 column 1 (char 0)");
                 ("details", JStr "Expecting value: line 1 column 1 (char 0)") ])
  /\ body_field (fst (validate_startup html_env acme_validate_request)) "raw_response" = None
  /\ body_field (fst (generate_faq html_env acme_faq_request)) "raw_response" = None.
Proof. repeat split; reflexivity. Qed.

(** C4, as amended.  For a request that passes validation, if the provider
    returns a 2xx response whose body decodes to a JSON object in which
    [choices] is absent or empty, or to an empty or null value, the handler
    returns 500 with a body made of an [error] field and a [raw_response]
    field equal to the decoded provider body. *)
Theorem empty_result_reported (env : Env) (req : request) (r : response)
    (v : json) :
  is_2xx (status_code r) = true ->
  json_decoded r = inr v ->
  lacks_choices v = true ->
  (passes_validation validate_required env req = true ->
   env_provider env (validate_call env req) = PostReturns r ->
   fst (validate_startup env req)
   = mk_http 500 (JObj [ ("error", JStr "No valid response from NVIDIA API.");
                         ("raw_response", v) ]))
  /\
  (passes_validation faq_required env req = true ->
   env_provider env (faq_call env req) = PostReturns r ->
   fst (generate_faq env req)
   = mk_http 500 (JObj [ ("error", JStr "No valid response from NVIDIA API.");
                         ("raw_response", v) ])).
Proof.
  intros Hs Hj Hl. apply is_2xx_no_error in Hs. split; intros Hv Hp.
  - rewrite (validate_startup_validated _ _ Hv).
    now rewrite (relay_lacks_choices _ _ _ _ _ Hp Hs Hj Hl).
  - rewrite (generate_faq_validated _ _ Hv).
    now rewrite (relay_lacks_choices _ _ _ _ _ Hp Hs Hj Hl).
Qed.

Lemma empty_result_reported_witness :
  fst (validate_startup no_choices_env acme_validate_request)
  = mk_http 500 (JObj [ ("error", JStr "No valid response from NVIDIA API.");
                        ("raw_response", JObj [ ("detail", JStr "busy") ]) ])
  /\ fst (generate_faq no_choices_env acme_faq_request)
     = mk_http 500 (JObj [ ("error", JStr "No valid response from NVIDIA API.");
                           ("raw_response", JObj [ ("detail", JStr "busy") ]) ]).
Proof.
  split.
  - apply (empty_result_reported no_choices_env acme_validate_request
             (ok_response (JObj [ ("detail", JStr "busy") ])) _
             eq_refl eq_refl eq_refl); reflexivity.
  - apply (empty_result_reported no_choices_env acme_faq_request
             (ok_response (JObj [ ("detail", JStr "busy") ])) _
             eq_refl eq_refl eq_refl); reflexivity.
Defined.

(** C4 as stated fails when the body decodes to a JSON value that is neither
    an object nor empty: [choices] is absent from the number 5, and the
    handlers answer from the catch-all clause, without [raw_response]. *)
Lemma number_body_is_internal_error :
  passes_validation validate_required number_env acme_validate_request = true
  /\ passes_validation faq_required number_env acme_faq_request = true
  /\ env_provider number_env (validate_call number_env acme_validate_request)
     = PostReturns (ok_response (JInt 5))
  /\ env_provider number_env (faq_call number_env acme_faq_request)
     = PostReturns (ok_response (JInt 5))
  /\ is_2xx (status_code (ok_response (JInt 5))) = true
  /\ json_decoded (ok_response (JInt 5)) = inr (JInt 5)
  /\ fst (validate_startup number_env acme_validate_request)
     = unexpected_error_response "argument of type 'int' is not iterable"
  /\ fst (generate_faq number_env acme_faq_request)
     = unexpected_error_response "argument of type 'int' is not iterable"
  /\ body_field (fst (validate_startup number_env acme_validate_request)) "raw_response" = None
  /\ body_field (fst (generate_faq number_env acme_faq_request)) "raw_response" = None.
Proof. repeat split; reflexivity. Qed.

(** C5.  For every request to either endpoint, if the credential
    (NVIDIA_API_KEY) is absent, the handler returns status 500 and no
    provider call is made. *)
Theorem no_credential_no_call (env : Env) (req : request) :
  env_NVIDIA_API_KEY env = None ->
  (status (fst (validate_startup env req)) = 500
   /\ snd (validate_startup env req) = [])
  /\
  (status (fst (generate_faq env req)) = 500
   /\ snd (generate_faq env req) = []).
Proof.
  intros H. apply unset_of_None in H.
  rewrite (validate_startup_unset _ req H), (generate_faq_unset _ req H).
  repeat split.
Qed.

Lemma no_credential_no_call_witness :
  (status (fst (validate_startup unconfigured_env acme_validate_request)) = 500
   /\ snd (validate_startup unconfigured_env acme_validate_request) = [])
  /\
  (status (fst (generate_faq unconfigured_env acme_validate_request)) = 500
   /\ snd (generate_faq unconfigured_env acme_validate_request) = []).
Proof.
  apply (no_credential_no_call unconfigured_env acme_validate_request).
  reflexivity.
Defined.

(** C6, as amended.  For a request that passes validation, if the provider
    call raises a transport error (connection failure, timeout) or returns a
    4xx or 5xx status, the handler returns 500 with the error description in
    the body, and exactly one provider call is made. *)
Theorem provider_failure_reported (env : Env) (req : request) :
  (passes_validation validate_required env req = true ->
   (forall f msg,
       env_provider env (validate_call env req) = PostRaises f msg ->
       validate_startup env req
       = (mk_http 500 (JObj [ ("error", JStr ("NVIDIA API request failed: " ++ msg));
                              ("details", JStr msg) ]),
          [validate_call env req]))
   /\
   (forall r,
       env_provider env (validate_call env req) = PostReturns r ->
       is_error_status (status_code r) = true ->
       validate_startup env req
       = (mk_http 500 (JObj [ ("error", JStr ("NVIDIA API request failed: "
                                              ++ http_error_message r));
                              ("details", JStr (http_error_message r)) ]),
          [validate_call env req])))
  /\
  (passes_validation faq_required env req = true ->
   (forall f msg,
       env_provider env (faq_call env req) = PostRaises f msg ->
       generate_faq env req
       = (mk_http 500 (JObj [ ("error", JStr ("NVIDIA API request failed: " ++ msg));
                              ("details", JStr msg) ]),
          [faq_call env req]))
   /\
   (forall r,
       env_provider env (faq_call env req) = PostReturns r ->
       is_error_status (status_code r) = true ->
       generate_faq env req
       = (mk_http 500 (JObj [ ("error", JStr ("NVIDIA API request failed: "
                                              ++ http_error_message r));
                              ("details", JStr (http_error_message r)) ]),
          [faq_call env req]))).
Proof.
  split; intros Hv.
  - rewrite (validate_startup_validated _ _ Hv). split.
    + intros f msg Hp. exact (relay_transport _ _ _ _ _ Hp).
    + intros r Hp Hs. exact (relay_http_error _ _ _ _ Hp Hs).
  - rewrite (generate_faq_validated _ _ Hv). split.
    + intros f msg Hp. exact (relay_transport _ _ _ _ _ Hp).
    + intros r Hp Hs. exact (relay_http_error _ _ _ _ Hp Hs).
Qed.

Lemma provider_failure_reported_witness :
  generate_faq timeout_env acme_faq_request
  = (mk_http 500 (JObj [ ("error", JStr "NVIDIA API request failed: Read timed out. (read timeout=60)");
                         ("details", JStr "Read timed out. (read timeout=60)") ]),
     [faq_call timeout_env acme_faq_request])
  /\ validate_startup unavailable_env acme_validate_request
     = (mk_http 500 (JObj [ ("error", JStr "NVIDIA API request failed: 503 Server Error: Service Unavailable for url: https://integrate.api.nvidia.com/v1/chat/completions");
                            ("details", JStr "503 Server Error: Service Unavailable for url: https://integrate.api.nvidia.com/v1/chat/completions") ]),
        [validate_call unavailable_env acme_validate_request]).
Proof.
  split.
  - destruct (provider_failure_reported timeout_env acme_faq_request) as [_ H].
    destruct (H eq_refl) as [Ht _].
    exact (Ht TimedOut "Read timed out. (read timeout=60)" eq_refl).
  - destruct (provider_failure_reported unavailable_env acme_validate_request)
      as [H _].
    destruct (H eq_refl) as [_ Hs].
    exact (Hs unavailable_response eq_refl eq_refl).
Defined.

(** C6 as stated fails on a status that is neither 2xx nor 4xx/5xx:
    [raise_for_status] lets a 300 answer through, and a well-formed body is
    then relayed with status 200. *)
Lemma status_300_is_relayed :
  passes_validation validate_required redirect_env acme_validate_request = true
  /\ passes_validation faq_required redirect_env acme_faq_request = true
  /\ env_provider redirect_env (validate_call redirect_env acme_validate_request)
     = PostReturns multiple_choices_response
  /\ env_provider redirect_env (faq_call redirect_env acme_faq_request)
     = PostReturns multiple_choices_response
  /\ is_2xx (status_code multiple_choices_response) = false
  /\ fst (validate_startup redirect_env acme_validate_request)
     = mk_http 200 (JObj [ ("success", JBool true); ("ai_response", JStr "**Q: ...") ])
  /\ fst (generate_faq redirect_env acme_faq_request)
     = mk_http 200 (JObj [ ("success", JBool true); ("faq_content", JStr "**Q: ...") ])
  /\ status (fst (validate_startup redirect_env acme_validate_request)) <> 500
  /\ status (fst (generate_faq redirect_env acme_faq_request)) <> 500.
Proof. repeat split; try reflexivity; vm_compute; discriminate. Qed.

(** C7.  For every validated request the handler issues one provider call,
    to the completions URL with a 60-second timeout, whose payload has
    temperature 0.7, top_p 0.9, stream false, a single user-role message
    holding the rendered prompt, and max_tokens 1024 (validation endpoint)
    or 1000 (FAQ endpoint). *)
Theorem provider_call_shape (env : Env) (req : request) :
  (passes_validation validate_required env req = true ->
   snd (validate_startup env req)
   = [ mk_call "https://integrate.api.nvidia.com/v1/chat/completions"
         [ ("Authorization", "Bearer " ++ key_text (env_NVIDIA_API_KEY env));
           ("Accept", "application/json");
           ("Content-Type", "application/json") ]
         (JObj [ ("model", JStr "meta/llama3-8b-instruct");
                 ("messages",
                  JArr [ JObj [ ("role", JStr "user");
                                ("content", JStr (validate_prompt_of env req)) ] ]);
                 ("temperature", JFloat (Finite 7 (-1)));
                 ("top_p", JFloat (Finite 9 (-1)));
                 ("max_tokens", JInt 1024);
                 ("stream", JBool false) ])
         60 ])
  /\
  (passes_validation faq_required env req = true ->
   snd (generate_faq env req)
   = [ mk_call "https://integrate.api.nvidia.com/v1/chat/completions"
         [ ("Authorization", "Bearer " ++ key_text (env_NVIDIA_API_KEY env));
           ("Accept", "application/json");
           ("Content-Type", "application/json") ]
         (JObj [ ("model", JStr "meta/llama3-8b-instruct");
                 ("messages",
                  JArr [ JObj [ ("role", JStr "user");
                                ("content", JStr (faq_prompt_of env req)) ] ]);
                 ("temperature", JFloat (Finite 7 (-1)));
                 ("top_p", JFloat (Finite 9 (-1)));
                 ("max_tokens", JInt 1000);
                 ("stream", JBool false) ])
         60 ]).
Proof.
  split; intros Hv.
  - rewrite (validate_startup_validated _ _ Hv), relay_one_call. reflexivity.
  - rewrite (generate_faq_validated _ _ Hv), relay_one_call. reflexivity.
Qed.

Lemma provider_call_shape_witness :
  List.map call_timeout (snd (validate_startup timeout_env acme_validate_request)) = [60]
  /\ List.map call_timeout (snd (generate_faq html_env acme_faq_request)) = [60].
Proof.
  split.
  - rewrite (proj1 (provider_call_shape timeout_env acme_validate_request) eq_refl).
    reflexivity.
  - rewrite (proj2 (provider_call_shape html_env acme_faq_request) eq_refl).
    reflexivity.
Defined.

(** C8.  The prompt a handler renders for a request contains the value of
    every required field that is a string as a verbatim substring, whatever
    characters the value holds; for a request that passes validation that
    prompt is the one the provider call carries. *)
Theorem field_values_verbatim_in_prompt (env : Env) (req : request) :
  ((forall k s, In k validate_required -> field req k = JStr s ->
                Substring s (validate_prompt_of env req))
   /\
   (passes_validation validate_required env req = true ->
    exists c, snd (validate_startup env req) = [c]
              /\ sent_prompt c = Some (validate_prompt_of env req)))
  /\
  ((forall k s, In k faq_required -> field req k = JStr s ->
                Substring s (faq_prompt_of env req))
   /\
   (passes_validation faq_required env req = true ->
    exists c, snd (generate_faq env req) = [c]
              /\ sent_prompt c = Some (faq_prompt_of env req))).
Proof.
  repeat split.
  - intros k s Hin Hk.
    unfold validate_prompt_of. apply validate_prompt_contains. rewrite <- Hk.
    unfold validate_required in Hin. cbn [In] in *.
    destruct Hin as [<-|[<-|[<-|[<-|[<-|[]]]]]]; auto 6.
  - intros Hv. exists (validate_call env req).
    now rewrite (validate_startup_validated _ _ Hv), relay_one_call.
  - intros k s Hin Hk.
    unfold faq_prompt_of. apply faq_prompt_contains. rewrite <- Hk.
    unfold faq_required in Hin. cbn [In] in *.
    destruct Hin as [<-|[<-|[]]]; auto.
  - intros Hv. exists (faq_call env req).
    now rewrite (generate_faq_validated _ _ Hv), relay_one_call.
Qed.

Lemma field_values_verbatim_in_prompt_witness :
  Substring "{startup_name} is {{first}}"
    (validate_prompt_of completion_env acme_validate_request)
  /\ Substring "Widgets for robots"
       (faq_prompt_of completion_env acme_faq_request)
  /\ (exists c, snd (validate_startup completion_env acme_validate_request) = [c]
                /\ sent_prompt c
                   = Some (validate_prompt_of completion_env acme_validate_request)).
Proof.
  destruct (field_values_verbatim_in_prompt completion_env acme_validate_request)
    as [[Hs Hc] _].
  destruct (field_values_verbatim_in_prompt completion_env acme_faq_request)
    as [_ [Hf _]].
  split; [|split].
  - apply (Hs "competitiveAdvantage"); [|reflexivity].
    right. right. right. right. left. reflexivity.
  - apply (Hf "startupDescription"); [|reflexivity].
    right. left. reflexivity.
  - apply Hc. reflexivity.
Defined.

(** C9.  The credential check comes first: when the credential is absent,
    either handler returns the 500 configuration-error response whatever the
    request body is, and never the 400 validation response. *)
Theorem credential_checked_first (env : Env) (req : request) :
  env_NVIDIA_API_KEY env = None ->
  (fst (validate_startup env req)
   = mk_http 500 (JObj [ ("error", JStr "NVIDIA_API_KEY is not set in the .env file.") ])
   /\ status (fst (validate_startup env req)) <> 400)
  /\
  (fst (generate_faq env req)
   = mk_http 500 (JObj [ ("error", JStr "NVIDIA_API_KEY is not set in the .env file.") ])
   /\ status (fst (generate_faq env req)) <> 400).
Proof.
  intros H. apply unset_of_None in H.
  rewrite (validate_startup_unset _ req H), (generate_faq_unset _ req H).
  repeat split; discriminate.
Qed.

Lemma credential_checked_first_witness :
  fst (validate_startup unconfigured_env undecodable_request)
  = mk_http 500 (JObj [ ("error", JStr "NVIDIA_API_KEY is not set in the .env file.") ])
  /\ fst (generate_faq unconfigured_env empty_object_request)
     = mk_http 500 (JObj [ ("error", JStr "NVIDIA_API_KEY is not set in the .env file.") ]).
Proof.
  split.
  - apply (credential_checked_first unconfigured_env undecodable_request eq_refl).
  - apply (credential_checked_first unconfigured_env empty_object_request eq_refl).
Defined.

(** C10, as amended.  With the credential configured: a POST to either
    endpoint whose body is not a JSON object (a body [get_json] refuses, or
    JSON null, or any other value that is not an object) gets the 500
    catch-all response, not the 400 validation response, and no provider
    call is made. *)
Theorem non_object_body_is_internal_error (env : Env) (req : request) :
  credential_set env = true ->
  (forall kvs, get_json req <> Decoded (JObj kvs)) ->
  exists m,
    validate_startup env req
    = (mk_http 500 (JObj [ ("error", JStr ("An unexpected error occurred: " ++ m));
                           ("details", JStr m) ]), [])
    /\ generate_faq env req
       = (mk_http 500 (JObj [ ("error", JStr ("An unexpected error occurred: " ++ m));
                              ("details", JStr m) ]), [])
    /\ status (fst (validate_startup env req)) <> 400
    /\ status (fst (generate_faq env req)) <> 400.
Proof.
  intros Hk Hn. destruct (get_json req) as [v|d] eqn:Hb.
  - assert (Ho : is_object v = false).
    { destruct v; try reflexivity. now elim (Hn kvs). }
    exists (no_get_message v).
    rewrite (validate_startup_not_object _ _ _ Hk Hb Ho).
    rewrite (generate_faq_not_object _ _ _ Hk Hb Ho).
    repeat split; discriminate.
  - exists d.
    rewrite (validate_startup_rejected _ _ _ Hk Hb).
    rewrite (generate_faq_rejected _ _ _ Hk Hb).
    repeat split; discriminate.
Qed.

Lemma non_object_body_is_internal_error_witness :
  exists m,
    validate_startup completion_env (mk_request (Decoded JNull))
    = (mk_http 500 (JObj [ ("error", JStr ("An unexpected error occurred: " ++ m));
                           ("details", JStr m) ]), [])
    /\ generate_faq completion_env (mk_request (Decoded JNull))
       = (mk_http 500 (JObj [ ("error", JStr ("An unexpected error occurred: " ++ m));
                              ("details", JStr m) ]), [])
    /\ status (fst (validate_startup completion_env (mk_request (Decoded JNull)))) <> 400
    /\ status (fst (generate_faq completion_env (mk_request (Decoded JNull)))) <> 400.
Proof.
  apply (non_object_body_is_internal_error completion_env
           (mk_request (Decoded JNull)) eq_refl).
  intros kvs H. discriminate H.
Defined.

(** C10 as stated fails without the credential: the body is one [get_json]
    refuses, and the handlers answer with the configuration error, which is
    not a response of the catch-all clause. *)
Lemma undecodable_body_without_credential :
  (forall kvs, get_json undecodable_request <> Decoded (JObj kvs))
  /\ fst (validate_startup unconfigured_env undecodable_request) = missing_key_response
  /\ fst (generate_faq unconfigured_env undecodable_request) = missing_key_response
  /\ (forall m, fst (validate_startup unconfigured_env undecodable_request)
                <> unexpected_error_response m)
  /\ (forall m, fst (generate_faq unconfigured_env undecodable_request)
                <> unexpected_error_response m).
Proof.
  repeat split; try (intros m H; discriminate H).
Qed.

(** * Further properties of the handlers *)

(** ** The handlers as functions of their inputs *)

(** [has_choices] and the subscription chain neither read nor change the
    frame. *)
Lemma has_choices_frame v fr :
  has_choices v fr = (fst (has_choices v init_frame), fr).
Proof.
  unfold has_choices, bind, lift, ret.
  destruct (truthy v); [|reflexivity].
  destruct (py_in "choices" v) as [e|[]]; try reflexivity.
  now destruct (py_getitem v (KStr "choices")).
Qed.

Lemma first_choice_content_frame v fr :
  first_choice_content v fr = (fst (first_choice_content v init_frame), fr).
Proof.
  unfold first_choice_content, bind, lift.
  destruct (py_getitem v (KStr "choices")) as [e|ch]; [reflexivity|].
  destruct (py_getitem ch (KInt 0)) as [e|c0]; [reflexivity|].
  destruct (py_getitem c0 (KStr "message")) as [e|m]; [reflexivity|].
  now destruct (py_getitem m (KStr "content")).
Qed.

(** What the Python operators raise is for the catch-all clause. *)
Lemma py_in_exn k v e : py_in k v = inl e -> for_catch_all e.
Proof.
  destruct v; simpl; intros H; inversion H; now split.
Qed.

Lemma py_getitem_exn v k e : py_getitem v k = inl e -> for_catch_all e.
Proof.
  unfold py_getitem. intros H.
  destruct v; destruct k;
    repeat match type of H with
           | context [match ?x with _ => _ end] => destruct x
           end;
    inversion H; now split.
Qed.

Lemma has_choices_exn v e :
  fst (has_choices v init_frame) = inl e -> for_catch_all e.
Proof.
  unfold has_choices, bind, lift, ret.
  destruct (truthy v); [|discriminate].
  destruct (py_in "choices" v) as [e'|[]] eqn:Ein; simpl.
  - intros H. inversion H. subst. exact (py_in_exn _ _ _ Ein).
  - destruct (py_getitem v (KStr "choices")) as [e'|ch] eqn:Eg; simpl.
    + intros H. inversion H. subst. exact (py_getitem_exn _ _ _ Eg).
    + discriminate.
  - discriminate.
Qed.

Lemma first_choice_content_exn v e :
  fst (first_choice_content v init_frame) = inl e -> for_catch_all e.
Proof.
  unfold first_choice_content, bind, lift.
  destruct (py_getitem v (KStr "choices")) as [e1|ch] eqn:E1; simpl.
  { intros H. inversion H. subst. exact (py_getitem_exn _ _ _ E1). }
  destruct (py_getitem ch (KInt 0)) as [e2|c0] eqn:E2; simpl.
  { intros H. inversion H. subst. exact (py_getitem_exn _ _ _ E2). }
  destruct (py_getitem c0 (KStr "message")) as [e3|m] eqn:E3; simpl.
  { intros H. inversion H. subst. exact (py_getitem_exn _ _ _ E3). }
  destruct (py_getitem m (KStr "content")) as [e4|t] eqn:E4; simpl.
  { intros H. inversion H. subst. exact (py_getitem_exn _ _ _ E4). }
  discriminate.
Qed.

Lemma handle_catch_all e fr :
  for_catch_all e -> handle_exception e fr = unexpected_error_response (exn_str e).
Proof. intros [H1 H2]. unfold handle_exception. now rewrite H1, H2. Qed.

(** The tail of a [try] block answers by [reply_to], after its one call. *)
Lemma relay_reply env result_key c :
  run_try (relay env result_key c)
  = (reply_to env result_key (env_provider env c), [c]).
Proof.
  destruct (env_provider env c) as [f msg|r] eqn:Hp.
  { exact (relay_transport _ _ _ _ _ Hp). }
  unfold reply_to.
  destruct (is_error_status (status_code r)) eqn:Hs.
  { exact (relay_http_error _ _ _ _ Hp Hs). }
  destruct (json_decoded r) as [msg|v] eqn:Hj.
  { exact (relay_not_json _ _ _ _ _ Hp Hs Hj). }
  rewrite (relay_decoded _ _ _ _ _ Hp Hs Hj).
  unfold run_try, bind. rewrite has_choices_frame.
  destruct (fst (has_choices v init_frame)) as [e|[]] eqn:Eh.
  - now rewrite (handle_catch_all _ _ (has_choices_exn _ _ Eh)).
  - rewrite first_choice_content_frame.
    destruct (fst (first_choice_content v init_frame)) as [e|t] eqn:Ec.
    + now rewrite (handle_catch_all _ _ (first_choice_content_exn _ _ Ec)).
    + reflexivity.
  - reflexivity.
Qed.

Lemma early_reply_None missing required env req :
  early_reply missing required env req = None
  <-> passes_validation required env req = true.
Proof.
  unfold early_reply, passes_validation, credential_set.
  destruct (key_unset _); simpl; [split; discriminate|].
  destruct (get_json req) as [v|d]; [|split; discriminate].
  destruct v; try (split; discriminate).
  destruct (fields_truthy required kvs); split; (reflexivity || discriminate).
Qed.

(** Each handler, whole: the early answer if there is one, else the answer
    to the provider's outcome, after exactly the handler's call. *)
Lemma validate_startup_reply env req :
  validate_startup env req
  = match early_reply validate_missing_response validate_required env req with
    | Some x => (x, [])
    | None => (reply_to env "ai_response"
                 (env_provider env (validate_call env req)),
               [validate_call env req])
    end.
Proof.
  destruct (early_reply _ _ env req) as [x|] eqn:E.
  - unfold early_reply in E.
    destruct (key_unset (env_NVIDIA_API_KEY env)) eqn:Hk.
    { inversion E. now apply validate_startup_unset. }
    assert (Hc : credential_set env = true)
      by (unfold credential_set; now rewrite Hk).
    destruct (get_json req) as [v|d] eqn:Hb.
    + destruct v;
        try (inversion E; now apply validate_startup_not_object).
      destruct (fields_truthy validate_required kvs) eqn:Hf; [discriminate|].
      inversion E. exact (validate_startup_falsy _ _ _ Hc Hb Hf).
    + inversion E. now apply validate_startup_rejected.
  - apply early_reply_None in E.
    rewrite (validate_startup_validated _ _ E). apply relay_reply.
Qed.

Lemma generate_faq_reply env req :
  generate_faq env req
  = match early_reply faq_missing_response faq_required env req with
    | Some x => (x, [])
    | None => (reply_to env "faq_content"
                 (env_provider env (faq_call env req)),
               [faq_call env req])
    end.
Proof.
  destruct (early_reply _ _ env req) as [x|] eqn:E.
  - unfold early_reply in E.
    destruct (key_unset (env_NVIDIA_API_KEY env)) eqn:Hk.
    { inversion E. now apply generate_faq_unset. }
    assert (Hc : credential_set env = true)
      by (unfold credential_set; now rewrite Hk).
    destruct (get_json req) as [v|d] eqn:Hb.
    + destruct v;
        try (inversion E; now apply generate_faq_not_object).
      destruct (fields_truthy faq_required kvs) eqn:Hf; [discriminate|].
      inversion E. exact (generate_faq_falsy _ _ _ Hc Hb Hf).
    + inversion E. now apply generate_faq_rejected.
  - apply early_reply_None in E.
    rewrite (generate_faq_validated _ _ E). apply relay_reply.
Qed.

Lemma reply_to_shape env result_key missing out :
  reply_shape result_key missing (reply_to env result_key out).
Proof.
  unfold reply_to. destruct out as [f msg|r]; [constructor|].
  destruct (is_error_status _); [constructor|].
  destruct (json_decoded r) as [msg|v].
  - destruct (env_requests env); constructor.
  - destruct (fst (has_choices v init_frame)) as [e|[]]; try constructor.
    destruct (fst (first_choice_content v init_frame)); constructor.
Qed.

Lemma early_reply_shape result_key missing required env req x :
  early_reply missing required env req = Some x ->
  reply_shape result_key missing x.
Proof.
  unfold early_reply.
  destruct (key_unset _); [intros H; inversion H; constructor|].
  destruct (get_json req) as [v|d]; [|intros H; inversion H; constructor].
  destruct v; try (intros H; inversion H; constructor).
  destruct (fields_truthy required kvs); [discriminate|].
  intros H; inversion H; constructor.
Qed.

Lemma validate_startup_shape env req :
  reply_shape "ai_response" validate_missing_response
    (fst (validate_startup env req)).
Proof.
  rewrite validate_startup_reply.
  destruct (early_reply _ _ env req) as [x|] eqn:E; simpl.
  - exact (early_reply_shape _ _ _ _ _ _ E).
  - apply reply_to_shape.
Qed.

Lemma generate_faq_shape env req :
  reply_shape "faq_content" faq_missing_response
    (fst (generate_faq env req)).
Proof.
  rewrite generate_faq_reply.
  destruct (early_reply _ _ env req) as [x|] eqn:E; simpl.
  - exact (early_reply_shape _ _ _ _ _ _ E).
  - apply reply_to_shape.
Qed.

(** The answers to a provider outcome have status 200 or 500. *)
Lemma reply_to_status env result_key out :
  status (reply_to env result_key out) = 200
  \/ status (reply_to env result_key out) = 500.
Proof.
  unfold reply_to. destruct out as [f msg|r]; [now right|].
  destruct (is_error_status _); [now right|].
  destruct (json_decoded r) as [msg|v].
  - destruct (env_requests env); now right.
  - destruct (fst (has_choices v init_frame)) as [e|[]]; try now right.
    destruct (fst (first_choice_content v init_frame)); [now right|now left].
Qed.

(** ** The closed set of replies *)

(** X1.  Every reply of either handler is one of seven: the configuration
    error, the handler's validation error, the catch-all error, the
    request-failed error, the invalid-JSON error, the empty-result error, or
    the success response. *)
Theorem replies_are_of_seven_shapes (env : Env) (req : request) :
  reply_shape "ai_response" validate_missing_response
    (fst (validate_startup env req))
  /\ reply_shape "faq_content" faq_missing_response
       (fst (generate_faq env req)).
Proof. split; [apply validate_startup_shape | apply generate_faq_shape]. Qed.

(** X2.  Every reply of either handler keeps the JSON contract: status 200
    with [success: true], the text under the handler's key and no [error];
    or status 400 or 500 with a string under [error] and no [success]. *)
Theorem replies_are_well_formed (env : Env) (req : request) :
  well_formed_reply "ai_response" (fst (validate_startup env req))
  /\ well_formed_reply "faq_content" (fst (generate_faq env req)).
Proof.
  split.
  - destruct (validate_startup_shape env req); unfold well_formed_reply;
      cbn; first [ left; repeat split; eauto; fail
                 | right; repeat split; eauto ].
  - destruct (generate_faq_shape env req); unfold well_formed_reply;
      cbn; first [ left; repeat split; eauto; fail
                 | right; repeat split; eauto ].
Qed.

(** X3.  A provider call goes out exactly when the request passes
    validation, and then it is the handler's one call. *)
Theorem provider_called_iff_validated (env : Env) (req : request) :
  snd (validate_startup env req)
  = (if passes_validation validate_required env req
     then [validate_call env req] else [])
  /\ snd (generate_faq env req)
     = (if passes_validation faq_required env req
        then [faq_call env req] else []).
Proof.
  rewrite validate_startup_reply, generate_faq_reply. split.
  - destruct (early_reply _ validate_required env req) as [x|] eqn:E.
    + destruct (passes_validation validate_required env req) eqn:P;
        [|reflexivity].
      apply (early_reply_None validate_missing_response) in P. congruence.
    + apply early_reply_None in E. now rewrite E.
  - destruct (early_reply _ faq_required env req) as [x|] eqn:E.
    + destruct (passes_validation faq_required env req) eqn:P;
        [|reflexivity].
      apply (early_reply_None faq_missing_response) in P. congruence.
    + apply early_reply_None in E. now rewrite E.
Qed.

(** X4.  A credential set to the empty string counts as unset: both
    handlers answer the configuration error and make no provider call. *)
Theorem empty_credential_is_unset (env : Env) (req : request) :
  env_NVIDIA_API_KEY env = Some "" ->
  validate_startup env req
  = (mk_http 500 (JObj [ ("error", JStr "NVIDIA_API_KEY is not set in the .env file.") ]), [])
  /\ generate_faq env req
     = (mk_http 500 (JObj [ ("error", JStr "NVIDIA_API_KEY is not set in the .env file.") ]), []).
Proof.
  intros H.
  assert (Hu : key_unset (env_NVIDIA_API_KEY env) = true) by now rewrite H.
  now rewrite (validate_startup_unset _ req Hu), (generate_faq_unset _ req Hu).
Qed.

Lemma empty_credential_is_unset_witness :
  validate_startup empty_key_env acme_validate_request
  = (mk_http 500 (JObj [ ("error", JStr "NVIDIA_API_KEY is not set in the .env file.") ]), [])
  /\ generate_faq empty_key_env acme_faq_request
     = (mk_http 500 (JObj [ ("error", JStr "NVIDIA_API_KEY is not set in the .env file.") ]), []).
Proof.
  split.
  - apply (empty_credential_is_unset empty_key_env acme_validate_request eq_refl).
  - apply (empty_credential_is_unset empty_key_env acme_faq_request eq_refl).
Defined.

(** ** When each status is returned *)

Lemma early_reply_400 missing required env req x :
  status missing = 400 ->
  early_reply missing required env req = Some x ->
  status x = 400 ->
  credential_set env = true
  /\ exists kvs, get_json req = Decoded (JObj kvs)
                 /\ fields_truthy required kvs = false.
Proof.
  intros _. unfold early_reply, credential_set.
  destruct (key_unset _); [intros H; inversion H; subst; discriminate|].
  destruct (get_json req) as [v|d];
    [|intros H; inversion H; subst; discriminate].
  destruct v; try (intros H; inversion H; subst; discriminate).
  destruct (fields_truthy required kvs) eqn:Hf; [discriminate|].
  intros _ _. split; [reflexivity|]. now exists kvs.
Qed.

(** X5.  Status 400 is returned exactly when the credential is configured,
    the body decodes to an object, and some required field is falsy there:
    absent, null, false, zero, or an empty string, list or object. *)
Theorem status_400_iff_falsy_field (env : Env) (req : request) :
  (status (fst (validate_startup env req)) = 400
   <-> credential_set env = true
       /\ exists kvs, get_json req = Decoded (JObj kvs)
                      /\ fields_truthy validate_required kvs = false)
  /\
  (status (fst (generate_faq env req)) = 400
   <-> credential_set env = true
       /\ exists kvs, get_json req = Decoded (JObj kvs)
                      /\ fields_truthy faq_required kvs = false).
Proof.
  split; split.
  - rewrite validate_startup_reply.
    destruct (early_reply _ _ env req) as [x|] eqn:E; simpl.
    + exact (early_reply_400 validate_missing_response _ _ _ _ eq_refl E).
    + intros H. destruct (reply_to_status env "ai_response"
                            (env_provider env (validate_call env req)));
        congruence.
  - intros [Hk [kvs [Hb Hf]]].
    now rewrite (validate_startup_falsy _ _ _ Hk Hb Hf).
  - rewrite generate_faq_reply.
    destruct (early_reply _ _ env req) as [x|] eqn:E; simpl.
    + exact (early_reply_400 faq_missing_response _ _ _ _ eq_refl E).
    + intros H. destruct (reply_to_status env "faq_content"
                            (env_provider env (faq_call env req)));
        congruence.
  - intros [Hk [kvs [Hb Hf]]].
    now rewrite (generate_faq_falsy _ _ _ Hk Hb Hf).
Qed.

Lemma status_400_iff_falsy_field_witness :
  status (fst (generate_faq completion_env number_name_request)) = 400
  /\ (credential_set completion_env = true
      /\ exists kvs, get_json empty_object_request = Decoded (JObj kvs)
                     /\ fields_truthy validate_required kvs = false).
Proof.
  split.
  - apply (proj2 (status_400_iff_falsy_field completion_env number_name_request)).
    split; [reflexivity|]. eexists. split; reflexivity.
  - apply (proj1 (status_400_iff_falsy_field completion_env empty_object_request)).
    reflexivity.
Defined.

(** The subscription chain succeeds exactly on the shape
    [{"choices": [{"message": {"content": t}, ..}, ..], ..}]. *)
Lemma first_choice_content_ok v t :
  fst (first_choice_content v init_frame) = inr t
  <-> first_message_content v = Some t.
Proof.
  unfold first_choice_content, first_message_content, bind, lift.
  destruct v as [| | | | | |kvs]; try (cbn; split; discriminate).
  unfold py_getitem at 1.
  destruct (assoc_get kvs "choices") as [ch|]; [|cbn; split; discriminate].
  destruct ch as [| | | |s|xs|kvs']; try (cbn; split; discriminate).
  - (* a string: its first character has no ["message"] *)
    cbn. destruct (seq_index (String.length s) 0); [|cbn; split; discriminate].
    destruct (get n s); cbn; split; discriminate.
  - destruct xs as [|c0 rest]; [cbn; split; discriminate|].
    cbn. destruct c0 as [| | | | | |first]; try (cbn; split; discriminate).
    cbn. destruct (assoc_get first "message") as [m|];
      [|cbn; split; discriminate].
    destruct m as [| | | | | |message]; try (cbn; split; discriminate).
    cbn. destruct (assoc_get message "content") as [t'|]; cbn.
    + split; intros H; inversion H; reflexivity.
    + split; discriminate.
Qed.

Lemma first_message_has_choices v t :
  first_message_content v = Some t ->
  fst (has_choices v init_frame) = inr true.
Proof.
  unfold first_message_content, has_choices, bind, lift, ret.
  destruct v as [| | | | | |kvs]; try discriminate.
  destruct kvs as [|kv kvs]; [discriminate|].
  cbn [truthy]. unfold py_in, py_getitem.
  destruct (assoc_get (kv :: kvs) "choices") as [ch|]; [|discriminate].
  destruct ch as [| | | | |xs|]; try discriminate.
  destruct xs; [discriminate|]. reflexivity.
Qed.

(** When the answer to a provider outcome is 200. *)
Lemma reply_to_200 env result_key out :
  status (reply_to env result_key out) = 200
  <-> exists r v t,
        out = PostReturns r
        /\ is_error_status (status_code r) = false
        /\ json_decoded r = inr v
        /\ first_message_content v = Some t.
Proof.
  split.
  - unfold reply_to. destruct out as [f msg|r]; [discriminate|].
    destruct (is_error_status (status_code r)) eqn:Hs; [discriminate|].
    destruct (json_decoded r) as [msg|v] eqn:Hj.
    { destruct (env_requests env); discriminate. }
    destruct (fst (has_choices v init_frame)) as [e|[]]; try discriminate.
    destruct (fst (first_choice_content v init_frame)) as [e|t] eqn:Ec;
      [discriminate|].
    intros _. exists r, v, t. apply first_choice_content_ok in Ec. auto.
  - intros [r [v [t [-> [Hs [Hj Hc]]]]]]. unfold reply_to.
    rewrite Hs, Hj, (first_message_has_choices _ _ Hc).
    apply first_choice_content_ok in Hc. now rewrite Hc.
Qed.

Lemma early_reply_not_200 missing required env req x :
  status missing = 400 ->
  early_reply missing required env req = Some x -> status x <> 200.
Proof.
  intros Hm. unfold early_reply.
  destruct (key_unset _); [intros H; inversion H; discriminate|].
  destruct (get_json req) as [v|d]; [|intros H; inversion H; discriminate].
  destruct v; try (intros H; inversion H; discriminate).
  destruct (fields_truthy required kvs); [discriminate|].
  intros H; inversion H; subst. rewrite Hm. discriminate.
Qed.

(** X6.  Status 200 is returned exactly when the request passes validation
    and the provider returns a response whose status is not 4xx or 5xx and
    whose body decodes to an object whose [choices] is a list whose first
    element is an object with a [message] object that has a [content]. *)
Theorem status_200_iff_first_choice (env : Env) (req : request) :
  (status (fst (validate_startup env req)) = 200
   <-> passes_validation validate_required env req = true
       /\ exists r v t,
            env_provider env (validate_call env req) = PostReturns r
            /\ is_error_status (status_code r) = false
            /\ json_decoded r = inr v
            /\ first_message_content v = Some t)
  /\
  (status (fst (generate_faq env req)) = 200
   <-> passes_validation faq_required env req = true
       /\ exists r v t,
            env_provider env (faq_call env req) = PostReturns r
            /\ is_error_status (status_code r) = false
            /\ json_decoded r = inr v
            /\ first_message_content v = Some t).
Proof.
  split.
  - rewrite validate_startup_reply.
    destruct (early_reply _ _ env req) as [x|] eqn:E; cbn [fst].
    + split.
      * intros H. now elim (early_reply_not_200 validate_missing_response _ _ _ _ eq_refl E).
      * intros [P _]. apply (early_reply_None validate_missing_response) in P.
        congruence.
    + rewrite reply_to_200. apply early_reply_None in E. tauto.
  - rewrite generate_faq_reply.
    destruct (early_reply _ _ env req) as [x|] eqn:E; cbn [fst].
    + split.
      * intros H. now elim (early_reply_not_200 faq_missing_response _ _ _ _ eq_refl E).
      * intros [P _]. apply (early_reply_None faq_missing_response) in P.
        congruence.
    + rewrite reply_to_200. apply early_reply_None in E. tauto.
Qed.

Lemma status_200_iff_first_choice_witness :
  status (fst (validate_startup redirect_env acme_validate_request)) = 200
  /\ (passes_validation faq_required completion_env acme_faq_request = true
      /\ exists r v t,
           env_provider completion_env (faq_call completion_env acme_faq_request)
           = PostReturns r
           /\ is_error_status (status_code r) = false
           /\ json_decoded r = inr v
           /\ first_message_content v = Some t).
Proof.
  split.
  - apply (proj1 (status_200_iff_first_choice redirect_env acme_validate_request)).
    split; [reflexivity|].
    exists multiple_choices_response, faq_choices, (JStr "**Q: ...").
    repeat split.
  - apply (proj2 (status_200_iff_first_choice completion_env acme_faq_request)).
    reflexivity.
Defined.

(** ** What a handler reads of the request *)

(** X7.  A handler reads nothing of the body but its required fields: two
    object bodies that give the same value for every required field (an
    absent field counting as null) get the same response and the same
    provider call. *)
Theorem only_required_fields_are_read (env : Env) (req1 req2 : request)
    (kvs1 kvs2 : list (string * json)) :
  get_json req1 = Decoded (JObj kvs1) ->
  get_json req2 = Decoded (JObj kvs2) ->
  ((forall k, In k validate_required -> dict_get kvs1 k = dict_get kvs2 k) ->
   validate_startup env req1 = validate_startup env req2)
  /\
  ((forall k, In k faq_required -> dict_get kvs1 k = dict_get kvs2 k) ->
   generate_faq env req1 = generate_faq env req2).
Proof.
  intros H1 H2. split; intros H.
  - assert (Ha := H "startupName" ltac:(in_lines)).
    assert (Hb := H "description" ltac:(in_lines)).
    assert (Hc := H "targetMarket" ltac:(in_lines)).
    assert (Hd := H "businessModel" ltac:(in_lines)).
    assert (He := H "competitiveAdvantage" ltac:(in_lines)).
    rewrite !validate_startup_reply.
    unfold early_reply, validate_call, validate_prompt_of, field.
    rewrite H1, H2. unfold fields_truthy, validate_required. cbn [forallb].
    now rewrite Ha, Hb, Hc, Hd, He.
  - assert (Ha := H "startupName" ltac:(in_lines)).
    assert (Hb := H "startupDescription" ltac:(in_lines)).
    rewrite !generate_faq_reply.
    unfold early_reply, faq_call, faq_prompt_of, field.
    rewrite H1, H2. unfold fields_truthy, faq_required. cbn [forallb].
    now rewrite Ha, Hb.
Qed.

Lemma only_required_fields_are_read_witness :
  generate_faq completion_env noisy_faq_request
  = generate_faq completion_env acme_faq_request.
Proof.
  apply (only_required_fields_are_read completion_env noisy_faq_request
           acme_faq_request _ _ eq_refl eq_refl).
  intros k Hk. cbn [In faq_required] in Hk.
  destruct Hk as [<-|[<-|[]]]; reflexivity.
Defined.

(** ** The invalid-JSON clause *)

Lemma reply_to_invalid_json env result_key out t :
  reply_to env result_key out = invalid_json_response t ->
  env_requests env = Requests_before_2_27
  /\ exists r msg, out = PostReturns r
                   /\ is_error_status (status_code r) = false
                   /\ json_decoded r = inl msg
                   /\ text r = t.
Proof.
  unfold reply_to. destruct out as [f msg|r]; [discriminate|].
  destruct (is_error_status (status_code r)) eqn:Hs; [discriminate|].
  destruct (json_decoded r) as [msg|v] eqn:Hj.
  - destruct (env_requests env); [|discriminate].
    intros H. inversion H. split; [reflexivity|]. now exists r, msg.
  - destruct (fst (has_choices v init_frame)) as [e|[]]; try discriminate.
    destruct (fst (first_choice_content v init_frame)); discriminate.
Qed.

Lemma early_reply_not_invalid_json missing required env req x t :
  body_field missing "raw_response" = None ->
  early_reply missing required env req = Some x ->
  x <> invalid_json_response t.
Proof.
  intros Hm. unfold early_reply.
  destruct (key_unset _); [intros H; inversion H; discriminate|].
  destruct (get_json req) as [v|d]; [|intros H; inversion H; discriminate].
  destruct v; try (intros H; inversion H; discriminate).
  destruct (fields_truthy required kvs); [discriminate|].
  intros H; inversion H; subst. intros ->. discriminate Hm.
Qed.

(** X8.  The invalid-JSON reply is given only under a requests library older
    than 2.27, to a validated request whose provider call returned a
    response with an undecodable body, and its [raw_response] is that
    response's text: the fallback text for a missing response is never
    sent, and from requests 2.27 on the reply is never given at all. *)
Theorem invalid_json_reply_provenance (env : Env) (req : request) (t : string) :
  (fst (validate_startup env req) = invalid_json_response t ->
   env_requests env = Requests_before_2_27
   /\ passes_validation validate_required env req = true
   /\ exists r msg,
        env_provider env (validate_call env req) = PostReturns r
        /\ is_error_status (status_code r) = false
        /\ json_decoded r = inl msg
        /\ text r = t)
  /\
  (fst (generate_faq env req) = invalid_json_response t ->
   env_requests env = Requests_before_2_27
   /\ passes_validation faq_required env req = true
   /\ exists r msg,
        env_provider env (faq_call env req) = PostReturns r
        /\ is_error_status (status_code r) = false
        /\ json_decoded r = inl msg
        /\ text r = t).
Proof.
  split.
  - rewrite validate_startup_reply.
    destruct (early_reply _ _ env req) as [x|] eqn:E; cbn [fst]; intros H.
    + now elim (early_reply_not_invalid_json validate_missing_response
                  _ _ _ _ t eq_refl E).
    + apply early_reply_None in E.
      destruct (reply_to_invalid_json _ _ _ _ H) as [Hv Hr]. auto.
  - rewrite generate_faq_reply.
    destruct (early_reply _ _ env req) as [x|] eqn:E; cbn [fst]; intros H.
    + now elim (early_reply_not_invalid_json faq_missing_response
                  _ _ _ _ t eq_refl E).
    + apply early_reply_None in E.
      destruct (reply_to_invalid_json _ _ _ _ H) as [Hv Hr]. auto.
Qed.

Lemma invalid_json_reply_provenance_witness :
  env_requests html_env_old_requests = Requests_before_2_27
  /\ passes_validation validate_required html_env_old_requests
       acme_validate_request = true
  /\ exists r msg,
       env_provider html_env_old_requests
         (validate_call html_env_old_requests acme_validate_request)
       = PostReturns r
       /\ is_error_status (status_code r) = false
       /\ json_decoded r = inl msg
       /\ text r = "<html>Bad gateway</html>".
Proof.
  apply (proj1 (invalid_json_reply_provenance html_env_old_requests
                  acme_validate_request "<html>Bad gateway</html>")).
  reflexivity.
Defined.

(** ** The provider's status line *)

(** X9.  Of a provider response whose status is not 4xx or 5xx the handlers
    read only the decoded body and the text: status code, reason and URL do
    not change the reply or the call. *)
Theorem status_line_ignored_outside_4xx_5xx
    (k : option string) (ver : requests_version) (str : json -> string)
    (r1 r2 : response) (req : request) :
  is_error_status (status_code r1) = false ->
  is_error_status (status_code r2) = false ->
  json_decoded r1 = json_decoded r2 ->
  text r1 = text r2 ->
  validate_startup (mk_env k ver (fun _ => PostReturns r1) str) req
  = validate_startup (mk_env k ver (fun _ => PostReturns r2) str) req
  /\ generate_faq (mk_env k ver (fun _ => PostReturns r1) str) req
     = generate_faq (mk_env k ver (fun _ => PostReturns r2) str) req.
Proof.
  intros H1 H2 Hj Ht.
  rewrite !validate_startup_reply, !generate_faq_reply.
  unfold early_reply, reply_to. cbn [env_NVIDIA_API_KEY env_provider env_requests].
  rewrite H1, H2, Hj, Ht. split; reflexivity.
Qed.

Lemma status_line_ignored_outside_4xx_5xx_witness :
  validate_startup redirect_env acme_validate_request
  = validate_startup completion_env acme_validate_request.
Proof.
  apply (status_line_ignored_outside_4xx_5xx (Some "k") Requests_from_2_27
           (fun _ => "") multiple_choices_response (ok_response faq_choices)
           acme_validate_request eq_refl eq_refl eq_refl eq_refl).
Defined.

(** ** The error text *)

(** X10.  A reply that has a [details] field has status 500 and no
    [raw_response], and its [error] is one of the two fixed prefixes
    followed by exactly the text under [details]. *)
Theorem details_repeat_the_error_text (env : Env) (req : request) (d : json) :
  (body_field (fst (validate_startup env req)) "details" = Some d ->
   status (fst (validate_startup env req)) = 500
   /\ body_field (fst (validate_startup env req)) "raw_response" = None
   /\ exists m,
        d = JStr m
        /\ (body_field (fst (validate_startup env req)) "error"
            = Some (JStr ("NVIDIA API request failed: " ++ m))
            \/ body_field (fst (validate_startup env req)) "error"
               = Some (JStr ("An unexpected error occurred: " ++ m))))
  /\
  (body_field (fst (generate_faq env req)) "details" = Some d ->
   status (fst (generate_faq env req)) = 500
   /\ body_field (fst (generate_faq env req)) "raw_response" = None
   /\ exists m,
        d = JStr m
        /\ (body_field (fst (generate_faq env req)) "error"
            = Some (JStr ("NVIDIA API request failed: " ++ m))
            \/ body_field (fst (generate_faq env req)) "error"
               = Some (JStr ("An unexpected error occurred: " ++ m)))).
Proof.
  split.
  - destruct (validate_startup_shape env req); cbn; intros H;
      try discriminate H; inversion H; subst; repeat split; eauto.
  - destruct (generate_faq_shape env req); cbn; intros H;
      try discriminate H; inversion H; subst; repeat split; eauto.
Qed.

Lemma details_repeat_the_error_text_witness :
  status (fst (generate_faq timeout_env acme_faq_request)) = 500
  /\ body_field (fst (generate_faq timeout_env acme_faq_request)) "raw_response" = None
  /\ exists m,
       JStr "Read timed out. (read timeout=60)" = JStr m
       /\ (body_field (fst (generate_faq timeout_env acme_faq_request)) "error"
           = Some (JStr ("NVIDIA API request failed: " ++ m))
           \/ body_field (fst (generate_faq timeout_env acme_faq_request)) "error"
              = Some (JStr ("An unexpected error occurred: " ++ m))).
Proof.
  apply (proj2 (details_repeat_the_error_text timeout_env acme_faq_request
                  (JStr "Read timed out. (read timeout=60)"))).
  reflexivity.
Defined.

(** ** The prompts as templates *)

(** X11.  Each prompt is a fixed template with the rendered field values
    spliced in, once each and in a fixed order (name, description, target
    market, business model, competitive advantage; name, description for
    the FAQ prompt): the text around the values does not depend on the
    request or on the environment. *)
Theorem prompts_are_fixed_templates :
  (exists p0 p1 p2 p3 p4 p5 : string,
      forall env a b c d e,
        validate_prompt env a b c d e
        = p0 ++ fmt env a ++ p1 ++ fmt env b ++ p2 ++ fmt env c ++ p3
             ++ fmt env d ++ p4 ++ fmt env e ++ p5)
  /\
  (exists p0 p1 p2 : string,
      forall env a b,
        faq_prompt env a b = p0 ++ fmt env a ++ p1 ++ fmt env b ++ p2).
Proof.
  split.
  - exists (join_lines [""; "        You are an expert startup validator and business analyst. Your task is to evaluate the following startup idea comprehensively."; ""; "        Startup Name: "]),
      (join_lines [""; "        Description: "]),
      (join_lines [""; "        Target Market: "]),
      (join_lines [""; "        Business Model: "]),
      (join_lines [""; "        Competitive Advantage: "]).
    eexists. intros env a b c d e. unfold validate_prompt.
    cbn [join_lines]. rewrite !append_assoc. cbn [append]. reflexivity.
  - exists (join_lines [""; "        You are an expert AI assistant specializing in creating comprehensive Frequently Asked Questions (FAQ) sections for new startups."; "        Your goal is to anticipate common questions potential customers, investors, or users might have about the startup."; ""; "        Startup Name: "]),
      (join_lines [""; "        Startup Description: "]).
    eexists. intros env a b. unfold faq_prompt.
    cbn [join_lines]. rewrite !append_assoc. cbn [append]. reflexivity.
Qed.

(** ** The empty-result and request-failed replies *)

Lemma has_choices_false v :
  fst (has_choices v init_frame) = inr false <-> gives_empty_result v = true.
Proof.
  unfold has_choices, gives_empty_result, bind, lift, ret.
  destruct (truthy v) eqn:Ht; [|split; reflexivity].
  cbn [negb orb].
  destruct v as [| | | |s|xs|kvs]; try (cbn; split; discriminate).
  - unfold py_in, py_getitem. destruct (str_contains "choices" s); cbn;
      split; (reflexivity || discriminate).
  - unfold py_in, py_getitem.
    destruct (existsb (str_eq_json "choices") xs); cbn;
      split; (reflexivity || discriminate).
  - unfold py_in, py_getitem.
    destruct (assoc_get kvs "choices") as [c|]; cbn; [|split; reflexivity].
    destruct (truthy c); cbn; split; (reflexivity || discriminate).
Qed.

Lemma reply_to_no_valid env result_key out v :
  reply_to env result_key out = no_valid_response v
  <-> exists r, out = PostReturns r
                /\ is_error_status (status_code r) = false
                /\ json_decoded r = inr v
                /\ gives_empty_result v = true.
Proof.
  split.
  - unfold reply_to. destruct out as [f msg|r]; [discriminate|].
    destruct (is_error_status (status_code r)) eqn:Hs; [discriminate|].
    destruct (json_decoded r) as [msg|v'] eqn:Hj.
    { destruct (env_requests env); discriminate. }
    destruct (fst (has_choices v' init_frame)) as [e|[]] eqn:Eh.
    + cbn. discriminate.
    + destruct (fst (first_choice_content v' init_frame)); cbn; discriminate.
    + intros H. inversion H. subst v'. apply has_choices_false in Eh.
      now exists r.
  - intros [r [-> [Hs [Hj Hg]]]]. unfold reply_to.
    apply has_choices_false in Hg. now rewrite Hs, Hj, Hg.
Qed.

Lemma early_reply_no_raw missing required env req x :
  body_field missing "raw_response" = None ->
  early_reply missing required env req = Some x ->
  body_field x "raw_response" = None.
Proof.
  intros Hm. unfold early_reply.
  destruct (key_unset _); [intros H; now inversion H|].
  destruct (get_json req) as [v|d]; [|intros H; now inversion H].
  destruct v; try (intros H; now inversion H).
  destruct (fields_truthy required kvs); [discriminate|].
  intros H; inversion H; subst; exact Hm.
Qed.

(** X12.  The empty-result reply, with the decoded body [v] under
    [raw_response], is given exactly when the request passes validation and
    the provider returns a response whose status is not 4xx or 5xx and whose
    body decodes to [v], where [v] is falsy, or an object whose [choices] is
    absent or falsy, or a list without the element ["choices"], or a string
    without the substring ["choices"]. *)
Theorem empty_result_reply_iff (env : Env) (req : request) (v : json) :
  (fst (validate_startup env req) = no_valid_response v
   <-> passes_validation validate_required env req = true
       /\ exists r,
            env_provider env (validate_call env req) = PostReturns r
            /\ is_error_status (status_code r) = false
            /\ json_decoded r = inr v
            /\ gives_empty_result v = true)
  /\
  (fst (generate_faq env req) = no_valid_response v
   <-> passes_validation faq_required env req = true
       /\ exists r,
            env_provider env (faq_call env req) = PostReturns r
            /\ is_error_status (status_code r) = false
            /\ json_decoded r = inr v
            /\ gives_empty_result v = true).
Proof.
  split.
  - rewrite validate_startup_reply.
    destruct (early_reply _ _ env req) as [x|] eqn:E; cbn [fst].
    + split.
      * intros ->.
        now pose proof (early_reply_no_raw validate_missing_response
                          _ _ _ _ eq_refl E).
      * intros [P _]. apply (early_reply_None validate_missing_response) in P.
        congruence.
    + rewrite reply_to_no_valid. apply early_reply_None in E. tauto.
  - rewrite generate_faq_reply.
    destruct (early_reply _ _ env req) as [x|] eqn:E; cbn [fst].
    + split.
      * intros ->.
        now pose proof (early_reply_no_raw faq_missing_response
                          _ _ _ _ eq_refl E).
      * intros [P _]. apply (early_reply_None faq_missing_response) in P.
        congruence.
    + rewrite reply_to_no_valid. apply early_reply_None in E. tauto.
Qed.

Lemma empty_result_reply_iff_witness :
  fst (generate_faq string_body_env acme_faq_request)
  = no_valid_response (JStr "overloaded")
  /\ (passes_validation validate_required no_choices_env acme_validate_request = true
      /\ exists r,
           env_provider no_choices_env
             (validate_call no_choices_env acme_validate_request) = PostReturns r
           /\ is_error_status (status_code r) = false
           /\ json_decoded r = inr (JObj [ ("detail", JStr "busy") ])
           /\ gives_empty_result (JObj [ ("detail", JStr "busy") ]) = true).
Proof.
  split.
  - apply (proj2 (empty_result_reply_iff string_body_env acme_faq_request
                    (JStr "overloaded"))).
    split; [reflexivity|].
    exists (ok_response (JStr "overloaded")). repeat split.
  - apply (proj1 (empty_result_reply_iff no_choices_env acme_validate_request
                    (JObj [ ("detail", JStr "busy") ]))).
    reflexivity.
Defined.

Lemma request_failed_inj m m' :
  request_failed_response m = request_failed_response m' -> m = m'.
Proof. intros H. now inversion H. Qed.

Lemma reply_to_request_failed env result_key out m :
  reply_to env result_key out = request_failed_response m
  <-> (exists f, out = PostRaises f m)
      \/ (exists r, out = PostReturns r
                    /\ is_error_status (status_code r) = true
                    /\ http_error_message r = m)
      \/ (env_requests env = Requests_from_2_27
          /\ exists r, out = PostReturns r
                       /\ is_error_status (status_code r) = false
                       /\ json_decoded r = inl m).
Proof.
  split.
  - unfold reply_to. destruct out as [f msg|r].
    { intros H. apply request_failed_inj in H. subst. left. now exists f. }
    destruct (is_error_status (status_code r)) eqn:Hs.
    { intros H. apply request_failed_inj in H. right. left. now exists r. }
    destruct (json_decoded r) as [msg|v] eqn:Hj.
    { destruct (env_requests env) eqn:Hv; [discriminate|].
      intros H. apply request_failed_inj in H. subst.
      right. right. split; [reflexivity|]. now exists r. }
    destruct (fst (has_choices v init_frame)) as [e|[]].
    + cbn. discriminate.
    + destruct (fst (first_choice_content v init_frame)); cbn; discriminate.
    + discriminate.
  - intros [[f ->]|[[r [-> [Hs <-]]]|[Hv [r [-> [Hs Hj]]]]]]; unfold reply_to.
    + reflexivity.
    + now rewrite Hs.
    + now rewrite Hs, Hj, Hv.
Qed.

Lemma early_reply_not_request_failed missing required env req x m :
  body_field missing "details" = None ->
  early_reply missing required env req = Some x ->
  x <> request_failed_response m.
Proof.
  intros Hm. unfold early_reply.
  destruct (key_unset _); [intros H; inversion H; discriminate|].
  destruct (get_json req) as [v|d];
    [|intros H; inversion H; cbn; discriminate].
  destruct v; try (intros H; inversion H; cbn; discriminate).
  destruct (fields_truthy required kvs); [discriminate|].
  intros H; inversion H; subst. intros ->. discriminate Hm.
Qed.

(** X13.  The request-failed reply with text [m] has exactly three causes,
    all after validation: [requests.post] raised with text [m]; the provider
    returned a 4xx or 5xx status, [m] being the text of the [HTTPError]; or,
    from requests 2.27 on, the provider returned another status with a body
    that does not decode, [m] being the decoder's message. *)
Theorem request_failed_reply_iff (env : Env) (req : request) (m : string) :
  (fst (validate_startup env req) = request_failed_response m
   <-> passes_validation validate_required env req = true
       /\ ((exists f, env_provider env (validate_call env req) = PostRaises f m)
           \/ (exists r,
                 env_provider env (validate_call env req) = PostReturns r
                 /\ is_error_status (status_code r) = true
                 /\ http_error_message r = m)
           \/ (env_requests env = Requests_from_2_27
               /\ exists r,
                    env_provider env (validate_call env req) = PostReturns r
                    /\ is_error_status (status_code r) = false
                    /\ json_decoded r = inl m)))
  /\
  (fst (generate_faq env req) = request_failed_response m
   <-> passes_validation faq_required env req = true
       /\ ((exists f, env_provider env (faq_call env req) = PostRaises f m)
           \/ (exists r,
                 env_provider env (faq_call env req) = PostReturns r
                 /\ is_error_status (status_code r) = true
                 /\ http_error_message r = m)
           \/ (env_requests env = Requests_from_2_27
               /\ exists r,
                    env_provider env (faq_call env req) = PostReturns r
                    /\ is_error_status (status_code r) = false
                    /\ json_decoded r = inl m))).
Proof.
  split.
  - rewrite validate_startup_reply.
    destruct (early_reply _ _ env req) as [x|] eqn:E; cbn [fst].
    + split.
      * intros H.
        now elim (early_reply_not_request_failed
                    validate_missing_response _ _ _ _ m eq_refl E).
      * intros [P _]. apply (early_reply_None validate_missing_response) in P.
        congruence.
    + rewrite reply_to_request_failed. apply early_reply_None in E. tauto.
  - rewrite generate_faq_reply.
    destruct (early_reply _ _ env req) as [x|] eqn:E; cbn [fst].
    + split.
      * intros H.
        now elim (early_reply_not_request_failed
                    faq_missing_response _ _ _ _ m eq_refl E).
      * intros [P _]. apply (early_reply_None faq_missing_response) in P.
        congruence.
    + rewrite reply_to_request_failed. apply early_reply_None in E. tauto.
Qed.

Lemma request_failed_reply_iff_witness :
  fst (validate_startup html_env acme_validate_request)
  = request_failed_response "Expecting value: line 1 column 1 (char 0)"
  /\ passes_validation faq_required timeout_env acme_faq_request = true.
Proof.
  split.
  - apply (proj1 (request_failed_reply_iff html_env acme_validate_request
                    "Expecting value: line 1 column 1 (char 0)")).
    split; [reflexivity|]. right. right. split; [reflexivity|].
    exists html_response. repeat split.
  - apply (proj2 (request_failed_reply_iff timeout_env acme_faq_request
                    "Read timed out. (read timeout=60)")).
    reflexivity.
Defined.

(** ** The two endpoints side by side *)

Lemma reply_to_keys env k1 k2 out :
  status (reply_to env k1 out) = status (reply_to env k2 out)
  /\ (status (reply_to env k1 out) <> 200 ->
      reply_to env k1 out = reply_to env k2 out)
  /\ (forall t, reply_to env k1 out = success_response k1 t
                <-> reply_to env k2 out = success_response k2 t).
Proof.
  unfold reply_to. destruct out as [f msg|r].
  { repeat split; discriminate. }
  destruct (is_error_status (status_code r)).
  { repeat split; discriminate. }
  destruct (json_decoded r) as [msg|v].
  { destruct (env_requests env); repeat split; discriminate. }
  destruct (fst (has_choices v init_frame)) as [e|[]];
    try (repeat split; discriminate).
  destruct (fst (first_choice_content v init_frame)) as [e|t'].
  { repeat split; discriminate. }
  split; [reflexivity|]. split; [intros H; now elim H|].
  intros t. split; intros H; inversion H; reflexivity.
Qed.

(** X14.  The two endpoints map a provider outcome alike: for validated
    requests whose calls get the same outcome, the statuses agree, every
    reply other than the success reply is the same, and the success replies
    carry the same text, under [ai_response] and [faq_content]. *)
Theorem endpoints_map_outcomes_alike (env : Env) (req1 req2 : request) :
  passes_validation validate_required env req1 = true ->
  passes_validation faq_required env req2 = true ->
  env_provider env (validate_call env req1)
  = env_provider env (faq_call env req2) ->
  status (fst (validate_startup env req1)) = status (fst (generate_faq env req2))
  /\ (status (fst (validate_startup env req1)) <> 200 ->
      fst (validate_startup env req1) = fst (generate_faq env req2))
  /\ (forall t,
         fst (validate_startup env req1)
         = mk_http 200 (JObj [ ("success", JBool true); ("ai_response", t) ])
         <-> fst (generate_faq env req2)
             = mk_http 200 (JObj [ ("success", JBool true); ("faq_content", t) ])).
Proof.
  intros P1 P2 Hp.
  rewrite validate_startup_reply, generate_faq_reply.
  apply (early_reply_None validate_missing_response) in P1.
  apply (early_reply_None faq_missing_response) in P2.
  rewrite P1, P2, Hp. cbn [fst].
  exact (reply_to_keys env "ai_response" "faq_content" _).
Qed.

Lemma endpoints_map_outcomes_alike_witness :
  fst (validate_startup unavailable_env acme_validate_request)
  = fst (generate_faq unavailable_env acme_faq_request).
Proof.
  destruct (endpoints_map_outcomes_alike unavailable_env acme_validate_request
              acme_faq_request eq_refl eq_refl eq_refl) as [_ [H _]].
  apply H. discriminate.
Defined.
